(** * Book Review API: the Book aggregate, its handlers and its routes

    A shallow embedding of [models/book.model.js], of
    [controllers/book.controller.js] and of [routes/book.routes.js].

    Conventions of the embedding.
    - An ObjectId is a natural number ([N]); the generator of fresh
      ObjectIds is a counter kept next to the collection.
    - A JavaScript Number holding a rating or a count is an integer ([Z]);
      the average, the result of a division, is a rational ([Q]).  On
      integer ratings the sum is exact in double precision, and the rational
      is the real quotient that the double division rounds.  The embedding
      covers the requests whose ratings are integers: a rating with a
      fraction, which [validateReview] refuses and the schema admits from
      the body of [createBook], is outside it.
    - A page and a limit are read as the integers their texts denote; a
      Number holds those below 2^53 exactly, and the statements about the
      numbers of a listing are for such ([exact]).
    - The [books] collection is the list of its documents in insertion
      order.  Of the timestamps only [createdAt], which the listing sorts
      on, is kept; the time of a request is an input of the handler.
    - A handler is a function from the world and the request to the new
      world and the response; a [throw] caught by the handler's
      [try/catch] is the 500 response of that handler.

    What is taken from the libraries the handlers call.
    - [new Book(body)] reads the paths of the schema from the body,
      applies the [trim] setters and the defaults, and keeps the [_id] of
      the body and of each of its reviews, and its [createdAt]; it draws an
      [_id] for the document and for each embedded review that carries
      none.  An id the body carries is a well-formed ObjectId.
    - The generator never draws an ObjectId that is in the collection or
      in the request at hand: the counter is raised above the ids of the
      body before it is drawn from.
    - An insert under an [_id] that a stored book has is refused by the
      store (duplicate key), a [throw] of [doc.save()].
    - [doc.save()] validates (the required paths, and on a new document
      the paths that were set), then runs the pre-save hook, then writes:
      an insert for a new document, an update of the document with the
      same [_id] otherwise.
    - [Book.findById] throws on a text that does not cast to an ObjectId;
      [reviews.id] answers [null] on such a text.
    - [review.remove()] makes the parent array pull the [_id] of the
      review.
    - The regular expression engine and the score of the text index are
      parameters of the queries.  [populate], which only decorates the
      answer with user names, and the indexes, which belong to the storage
      engine, are left out. *)

From Stdlib Require Import String Ascii.
From Stdlib Require Import List ZArith QArith Qround Bool Arith Lia.
From Stdlib Require Import Sorting.Sorted Permutation.
Import ListNotations.

Local Open Scope string_scope.
Local Open Scope list_scope.
Local Open Scope Z_scope.

(** ** The schema *)

Definition ObjectId := N.
Bind Scope N_scope with ObjectId.

(** [reviewSchema] *)
Record Review := mkReview {
  review_id : ObjectId;
  user : ObjectId;
  rating : Z;
  comment : string
}.

(** [bookSchema] *)
Record Book := mkBook {
  book_id : ObjectId;
  title : string;
  author : string;
  genre : string;
  description : string;
  reviews : list Review;
  averageRating : Q;
  totalReviews : Z;
  createdAt : nat
}.

Definition set_reviews (b : Book) (rs : list Review) : Book :=
  mkBook (book_id b) (title b) (author b) (genre b) (description b)
         rs (averageRating b) (totalReviews b) (createdAt b).

Definition set_derived (b : Book) (avg : Q) (total : Z) : Book :=
  mkBook (book_id b) (title b) (author b) (genre b) (description b)
         (reviews b) avg total (createdAt b).

(** ** [bookSchema.methods.updateRating] *)

(** [this.reviews.reduce((sum, review) => sum + review.rating, 0)] *)
Definition totalRating (rs : list Review) : Z :=
  fold_left (fun sum review => sum + rating review) rs 0.

Definition updateRating (b : Book) : Book :=
  if (length (reviews b) =? 0)%nat then set_derived b 0%Q 0
  else
    set_derived b
      (inject_Z (totalRating (reviews b)) / inject_Z (Z.of_nat (length (reviews b))))%Q
      (Z.of_nat (length (reviews b))).

(** The specification's side: the sum of the ratings, by recursion on the
    collection, and the quotient as a fraction over the count. *)
Fixpoint sum_ratings (rs : list Review) : Z :=
  match rs with
  | [] => 0
  | r :: rs' => rating r + sum_ratings rs'
  end.

Definition quotient_spec (rs : list Review) : Q :=
  Qmake (sum_ratings rs) (Pos.of_nat (length rs)).

(** A book whose reviews carry the given ratings, ids counted from 1. *)
Definition rated (zs : list Z) : Book :=
  mkBook 0%N "t" "a" "g" "d"
         (map (fun p => mkReview (N.of_nat (fst p)) (N.of_nat (fst p)) (snd p) "c")
              (combine (seq 1 (length zs)) zs))
         0%Q 0 0%nat.

(** ** Strings *)

(** The white space that [trim] and [parseInt] strip, within ASCII. *)
Definition is_space (c : ascii) : bool :=
  let n := nat_of_ascii c in
  ((9 <=? n) && (n <=? 13) || (n =? 32))%nat.

Fixpoint trimStart (s : string) : string :=
  match s with
  | String c s' => if is_space c then trimStart s' else s
  | EmptyString => EmptyString
  end.

Definition rev_string (s : string) : string :=
  string_of_list_ascii (rev (list_ascii_of_string s)).

Definition trim (s : string) : string :=
  rev_string (trimStart (rev_string (trimStart s))).

Definition notEmpty (s : string) : bool := negb (s =? "")%string.

Definition toLower (c : ascii) : ascii :=
  let n := nat_of_ascii c in
  if ((65 <=? n) && (n <=? 90))%nat then ascii_of_nat (n + 32) else c.

Fixpoint lower (s : string) : string :=
  match s with
  | String c s' => String (toLower c) (lower s')
  | EmptyString => EmptyString
  end.

(** [needle] occurs in [s]. *)
Fixpoint includes (needle s : string) : bool :=
  String.prefix needle s ||
  match s with
  | String _ s' => includes needle s'
  | EmptyString => false
  end.

(** Case-insensitive partial match. *)
Definition includes_ci (needle s : string) : bool :=
  includes (lower needle) (lower s).

(** ** [parseInt] and [||] on numbers *)

Definition digit_of (radix : Z) (c : ascii) : option Z :=
  let n := Z.of_nat (nat_of_ascii c) in
  let d := if (48 <=? n) && (n <=? 57) then Some (n - 48)
           else if (97 <=? n) && (n <=? 122) then Some (n - 87)
           else if (65 <=? n) && (n <=? 90) then Some (n - 55)
           else None in
  match d with
  | Some v => if v <? radix then Some v else None
  | None => None
  end.

(** The value of the longest prefix of digits; [acc] is [None] until a
    digit has been read. *)
Fixpoint digits (radix : Z) (s : string) (acc : option Z) : option Z :=
  match s with
  | String c s' =>
      match digit_of radix c with
      | Some d =>
          digits radix s'
                 (Some (match acc with Some a => a * radix + d | None => d end))
      | None => acc
      end
  | EmptyString => acc
  end.

Definition strip_sign (s : string) : Z * string :=
  match s with
  | String "-" r => (-1, r)
  | String "+" r => (1, r)
  | _ => (1, s)
  end.

Definition strip_radix (s : string) : Z * string :=
  match s with
  | String "0" (String "x" r) => (16, r)
  | String "0" (String "X" r) => (16, r)
  | _ => (10, s)
  end.

(** [parseInt(x)] for a query parameter [x]: a string, or [undefined]
    ([None]).  The result [None] is NaN. *)
Definition parseInt (x : option string) : option Z :=
  let inputString := match x with Some s => s | None => "undefined" end in
  let (sign, s1) := strip_sign (trimStart inputString) in
  let (radix, s2) := strip_radix s1 in
  match digits radix s2 None with
  | Some v => Some (sign * v)
  | None => None
  end.

(** [n || d]: NaN and 0 are falsy. *)
Definition number_or (n : option Z) (d : Z) : Z :=
  match n with
  | Some v => if v =? 0 then d else v
  | None => d
  end.

(** ** Requests and responses *)

(** A route parameter naming a document, as the ObjectId cast reads it. *)
Inductive IdParam :=
| Malformed
| Wellformed (oid : ObjectId).

Record Params := mkParams {
  param_id : option IdParam;
  param_reviewId : option IdParam
}.

(** The paths of [reviewSchema] in a request body; [_id] is [None] when
    the body leaves it to the generator. *)
Record ReviewInput := mkReviewInput {
  in_user : ObjectId;
  in_rating : Z;
  in_comment : string;
  in_id : option ObjectId
}.

(** The paths of [bookSchema] in the body of [POST /books]. *)
Record BookBody := mkBookBody {
  body_title : option string;
  body_author : option string;
  body_genre : option string;
  body_description : option string;
  body_reviews : list ReviewInput;
  body_averageRating : option Q;
  body_totalReviews : option Z;
  body_id : option ObjectId;
  body_createdAt : option nat
}.

Record ReviewBody := mkReviewBody {
  body_rating : option Z;
  body_comment : option string
}.

(** A request to a review route, past [auth]: [req.user._id],
    [req.params], [req.body]. *)
Record ReviewRequest := mkReviewRequest {
  req_user : ObjectId;
  req_params : Params;
  req_body : ReviewBody
}.

Inductive Payload :=
| ValidationErrors
| Message (message : string)
| ErrorMessage (message : string)
| BookDoc (book : Book)
| MessageBook (message : string) (book : Book)
| BookList (found : list Book)
| Page (found : list Book) (currentPage totalPages totalBooks : Z).

Record Response := respond {
  status : nat;
  payload : Payload
}.

(** ** express-validator chains of the routes *)

(** [body(f).trim()] *)
Definition sanitized (f : option string) : string :=
  trim (match f with Some s => s | None => "" end).

(** [validateBook] *)
Definition validateBook (body : BookBody) : bool :=
  notEmpty (sanitized (body_title body))
  && notEmpty (sanitized (body_author body))
  && notEmpty (sanitized (body_genre body))
  && notEmpty (sanitized (body_description body)).

(** [validateReview]: the rating and the trimmed comment when the chains
    pass. *)
Definition validateReview (body : ReviewBody) : option (Z * string) :=
  match body_rating body with
  | Some z =>
      if (1 <=? z) && (z <=? 5) && notEmpty (sanitized (body_comment body))
      then Some (z, sanitized (body_comment body))
      else None
  | None => None
  end.

(** ** The collection *)

Record World := mkWorld {
  books : list Book;
  next_oid : ObjectId
}.

Definition init_world : World := mkWorld [] 0%N.

Definition findById (w : World) (i : ObjectId) : option Book :=
  find (fun b => (book_id b =? i)%N) (books w).

(** Schema validation of [save]: the required paths and, on a new
    document, the paths that were set. *)
Definition valid_review (r : Review) : bool :=
  (1 <=? rating r) && (rating r <=? 5) && notEmpty (comment r).

Definition validate (isNew : bool) (b : Book) : bool :=
  notEmpty (title b) && notEmpty (author b) && notEmpty (genre b)
  && notEmpty (description b)
  && forallb valid_review (reviews b)
  && (if isNew
      then Qle_bool 0 (averageRating b) && Qle_bool (averageRating b) 5
      else true).

(** [bookSchema.pre('save')] *)
Definition pre_save (b : Book) : Book := updateRating b.

Definition insertOne (b : Book) (w : World) : World :=
  mkWorld (books w ++ [b]) (next_oid w).

Definition updateOne (b : Book) (w : World) : World :=
  mkWorld (map (fun d => if (book_id d =? book_id b)%N then b else d) (books w))
          (next_oid w).

(** The collection holds a document with this [_id]. *)
Definition id_in_use (i : ObjectId) (w : World) : bool :=
  existsb (fun d => (book_id d =? i)%N) (books w).

(** [book.save()]: validation, then the pre-save hook, then the write.
    [None] is the rejection: with a ValidationError, or, on the insert of
    a new document, with the duplicate key error of the index on [_id]. *)
Definition save (isNew : bool) (b : Book) (w : World) : option (World * Book) :=
  if validate isNew b then
    let b' := pre_save b in
    if isNew && id_in_use (book_id b') w then None
    else Some ((if isNew then insertOne b' w else updateOne b' w), b')
  else None.

(** The ObjectId generator after [n] ids were drawn. *)
Definition drawn (n : N) (w : World) : World :=
  mkWorld (books w) (next_oid w + n)%N.

(** ** [controllers/book.controller.js] *)

(** The [_id] of a new document or subdocument: the one the body sends,
    else the one the generator draws. *)
Definition id_or (sent : option ObjectId) (oid : ObjectId) : ObjectId :=
  match sent with
  | Some i => i
  | None => oid
  end.

Fixpoint cast_reviews (ins : list ReviewInput) (oid : ObjectId) : list Review :=
  match ins with
  | [] => []
  | i :: ins' =>
      mkReview (id_or (in_id i) oid) (in_user i) (in_rating i)
               (trim (in_comment i))
      :: cast_reviews ins' (N.succ oid)
  end.

(** [new Book(req.body)], the body sanitized by [validateBook]; the
    timestamp of creation is the body's when it sends one. *)
Definition new_Book (now : nat) (body : BookBody) (oid : ObjectId) : Book :=
  mkBook (id_or (body_id body) oid)
         (sanitized (body_title body)) (sanitized (body_author body))
         (sanitized (body_genre body)) (sanitized (body_description body))
         (cast_reviews (body_reviews body) (N.succ oid))
         (match body_averageRating body with Some q => q | None => 0%Q end)
         (match body_totalReviews body with Some z => z | None => 0 end)
         (match body_createdAt body with Some t => t | None => now end).

(** The ids a body sends. *)
Definition sent (i : option ObjectId) : list ObjectId :=
  match i with
  | Some x => [x]
  | None => []
  end.

Definition sent_ids (body : BookBody) : list ObjectId :=
  sent (body_id body) ++ flat_map (fun i => sent (in_id i)) (body_reviews body).

(** The generator does not draw an id that the collection or the request
    holds: its next id is above the ids it has drawn and the ids sent. *)
Definition above (ids : list ObjectId) (n : ObjectId) : ObjectId :=
  fold_right (fun i m => N.max (N.succ i) m) n ids.

Definition createBook (now : nat) (body : BookBody) (w : World)
  : World * Response :=
  if negb (validateBook body) then (w, respond 400 ValidationErrors)
  else
    let start := above (sent_ids body) (next_oid w) in
    let book := new_Book now body start in
    let w1 := drawn (1 + N.of_nat (length (body_reviews body)))
                    (mkWorld (books w) start) in
    match save true book w1 with
    | Some (w2, saved) => (w2, respond 201 (BookDoc saved))
    | None => (w1, respond 500 (ErrorMessage "Error creating book"))
    end.

Definition getBookById (params : Params) (w : World) : Response :=
  match param_id params with
  | None => respond 400 (Message "Book ID is required")
  | Some Malformed => respond 500 (ErrorMessage "Error fetching book")
  | Some (Wellformed i) =>
      match findById w i with
      | None => respond 404 (Message "Book not found")
      | Some book => respond 200 (BookDoc book)
      end
  end.

(** [book.reviews.find(review => review.user.toString() ===
    req.user._id.toString())] *)
Definition review_of (u : ObjectId) (rs : list Review) : option Review :=
  find (fun review => (user review =? u)%N) rs.

Definition addReview (req : ReviewRequest) (w : World) : World * Response :=
  match validateReview (req_body req) with
  | None => (w, respond 400 ValidationErrors)
  | Some (rating, comment) =>
  match param_id (req_params req) with
  | None => (w, respond 400 (Message "Book ID is required"))
  | Some Malformed => (w, respond 500 (ErrorMessage "Error adding review"))
  | Some (Wellformed i) =>
  match findById w i with
  | None => (w, respond 404 (Message "Book not found"))
  | Some book =>
  match review_of (req_user req) (reviews book) with
  | Some _ =>
      (w, respond 400 (Message "You have already reviewed this book"))
  | None =>
      let pushed :=
        set_reviews book
          (reviews book ++ [mkReview (next_oid w) (req_user req) rating comment]) in
      let w1 := drawn 1 w in
      match save false pushed w1 with
      | Some (w2, saved) =>
          (w2, respond 201 (MessageBook "Review added successfully" saved))
      | None => (w1, respond 500 (ErrorMessage "Error adding review"))
      end
  end end end end.

(** The in-place assignment to the first review of the user. *)
Fixpoint assign_first (u : ObjectId) (rating : Z) (comment : string)
         (rs : list Review) : list Review :=
  match rs with
  | [] => []
  | r :: rs' =>
      if (user r =? u)%N
      then mkReview (review_id r) (user r) rating comment :: rs'
      else r :: assign_first u rating comment rs'
  end.

Definition updateReview (req : ReviewRequest) (w : World) : World * Response :=
  match validateReview (req_body req) with
  | None => (w, respond 400 ValidationErrors)
  | Some (rating, comment) =>
  match param_id (req_params req) with
  | None => (w, respond 400 (Message "Book ID is required"))
  | Some Malformed => (w, respond 500 (ErrorMessage "Error updating review"))
  | Some (Wellformed i) =>
  match findById w i with
  | None => (w, respond 404 (Message "Book not found"))
  | Some book =>
  match review_of (req_user req) (reviews book) with
  | Some _ =>
      let assigned :=
        set_reviews book
          (assign_first (req_user req) rating comment (reviews book)) in
      match save false assigned w with
      | Some (w2, saved) =>
          (w2, respond 200 (MessageBook "Review updated successfully" saved))
      | None => (w, respond 500 (ErrorMessage "Error updating review"))
      end
  | None =>
      let pushed :=
        set_reviews book
          (reviews book ++ [mkReview (next_oid w) (req_user req) rating comment]) in
      let w1 := drawn 1 w in
      match save false pushed w1 with
      | Some (w2, saved) =>
          (w2, respond 200 (MessageBook "Review added successfully" saved))
      | None => (w1, respond 500 (ErrorMessage "Error updating review"))
      end
  end end end end.

(** [book.reviews.id(req.params.reviewId)]: the first subdocument with
    that [_id]; [null] when the parameter is absent or does not cast. *)
Definition reviews_id (p : option IdParam) (rs : list Review) : option Review :=
  match p with
  | Some (Wellformed r) => find (fun v => (review_id v =? r)%N) rs
  | _ => None
  end.

(** [review.remove()]: the parent array pulls the subdocuments with the
    [_id] of [review]. *)
Definition pull (r : ObjectId) (rs : list Review) : list Review :=
  filter (fun v => negb (review_id v =? r)%N) rs.

Definition deleteReview (u : ObjectId) (params : Params) (w : World)
  : World * Response :=
  match param_id params with
  | None => (w, respond 404 (Message "BookId not found"))
  | Some Malformed => (w, respond 500 (ErrorMessage "Error deleting review"))
  | Some (Wellformed i) =>
  match findById w i with
  | None => (w, respond 404 (Message "Book not found"))
  | Some book =>
  match reviews_id (param_reviewId params) (reviews book) with
  | None => (w, respond 404 (Message "Review not found"))
  | Some review =>
      if negb (user review =? u)%N
      then (w, respond 403 (Message "Not authorized to delete this review"))
      else
        let removed := set_reviews book (pull (review_id review) (reviews book)) in
        match save false removed w with
        | Some (w2, saved) => (w2, respond 200 (BookDoc saved))
        | None => (w, respond 500 (ErrorMessage "Error deleting review"))
        end
  end end end.

(** The requests that write, and the worlds they reach. *)
Inductive Request :=
| CreateBook (now : nat) (body : BookBody)
| AddReview (req : ReviewRequest)
| UpdateReview (req : ReviewRequest)
| DeleteReview (u : ObjectId) (params : Params).

Definition handle (w : World) (r : Request) : World * Response :=
  match r with
  | CreateBook now body => createBook now body w
  | AddReview req => addReview req w
  | UpdateReview req => updateReview req w
  | DeleteReview u params => deleteReview u params w
  end.

Definition run (rs : list Request) (w : World) : World :=
  fold_left (fun w r => fst (handle w r)) rs w.

Definition reachable (w : World) : Prop :=
  exists rs, run rs init_world = w.

(** ** Queries *)

(** A cursor's [sort]: insertion into a list kept in order; [before x y]
    holds when [x] may precede [y].  Documents with equal keys keep the
    order of the collection. *)
Section Sort.
Context {A : Type} (before : A -> A -> bool).

Fixpoint insert_sorted (x : A) (l : list A) : list A :=
  match l with
  | [] => [x]
  | y :: l' => if before x y then x :: l else y :: insert_sorted x l'
  end.

Definition sort_by (l : list A) : list A := fold_right insert_sorted [] l.
End Sort.

(** [sort({ createdAt: -1 })] *)
Definition newest_first (x y : Book) : bool := (createdAt y <=? createdAt x)%nat.

(** [req.query] of [GET /books] *)
Record ListQuery := mkListQuery {
  q_page : option string;
  q_limit : option string;
  q_author : option string;
  q_genre : option string
}.

(** The characters with a meaning in a regular expression source. *)
Definition metachar (c : ascii) : bool :=
  existsb (Ascii.eqb c)
          (list_ascii_of_string "\^$.|?*+()[]{}").

Definition literal (p : string) : bool :=
  negb (existsb metachar (list_ascii_of_string p)).

Section Queries.
(** [new RegExp(source, 'i')]: the test of the compiled expression, or
    [None] when the source is not an expression (SyntaxError). *)
Variable RegExp_i : string -> option (string -> bool).

(** The relevance of a document to a [$text] search over the index on
    [title] and [author]; [None] when the document does not match. *)
Variable textScore : string -> string -> string -> option Q.

(** [if (req.query.f) query.f = new RegExp(req.query.f, 'i')]: the
    condition on the field, or [None] for the SyntaxError. *)
Definition condition (f : option string) : option (string -> bool) :=
  match f with
  | Some source => if notEmpty source then RegExp_i source
                   else Some (fun _ => true)
  | None => Some (fun _ => true)
  end.

Definition selects (on_author on_genre : string -> bool) (b : Book) : bool :=
  on_author (author b) && on_genre (genre b).

(** [Book.find(query).skip(skip).limit(limit).sort({ createdAt: -1 })]:
    the server sorts, skips, then limits; it refuses a negative skip, and
    the driver sends a negative limit as its absolute value. *)
Definition find_page (sel : Book -> bool) (skip limit : Z) (w : World)
  : option (list Book) :=
  if skip <? 0 then None
  else Some (firstn (Z.to_nat (Z.abs limit))
               (skipn (Z.to_nat skip)
                  (sort_by newest_first (filter sel (books w))))).

Definition countDocuments (sel : Book -> bool) (w : World) : Z :=
  Z.of_nat (length (filter sel (books w))).

Definition getAllBooks (q : ListQuery) (w : World) : Response :=
  let page := number_or (parseInt (q_page q)) 1 in
  let limit := number_or (parseInt (q_limit q)) 10 in
  let skip := (page - 1) * limit in
  match condition (q_author q) with
  | None => respond 500 (ErrorMessage "Error fetching books")
  | Some on_author =>
  match condition (q_genre q) with
  | None => respond 500 (ErrorMessage "Error fetching books")
  | Some on_genre =>
  match find_page (selects on_author on_genre) skip limit w with
  | None => respond 500 (ErrorMessage "Error fetching books")
  | Some found =>
      let total := countDocuments (selects on_author on_genre) w in
      respond 200
        (Page found page
              (Qceiling (inject_Z total / inject_Z limit))
              total)
  end end end.

Definition score (query : string) (b : Book) : option Q :=
  textScore query (title b) (author b).

Definition relevance (query : string) (b : Book) : Q :=
  match score query b with Some q => q | None => 0%Q end.

(** [sort({ score: { $meta: 'textScore' } })] *)
Definition most_relevant_first (query : string) (x y : Book) : bool :=
  Qle_bool (relevance query y) (relevance query x).

Definition text_matches (query : string) (b : Book) : bool :=
  match score query b with Some _ => true | None => false end.

Definition searchBooks (query : option string) (w : World) : Response :=
  match query with
  | None => respond 400 (Message "Search query is required")
  | Some q =>
      if negb (notEmpty q)
      then respond 400 (Message "Search query is required")
      else
        respond 200
          (BookList
             (firstn 10
                (sort_by (most_relevant_first q)
                   (filter (text_matches q) (books w)))))
  end.
End Queries.

(** ** [routes/book.routes.js] *)

Inductive Method := GET | POST | PUT | DELETE.

Definition Method_eqb (a b : Method) : bool :=
  match a, b with
  | GET, GET | POST, POST | PUT, PUT | DELETE, DELETE => true
  | _, _ => false
  end.

(** A segment of a route path: a literal or a named parameter. *)
Inductive Segment :=
| Lit (s : string)
| Par (name : string).

Inductive Handler :=
| H_createBook
| H_getAllBooks
| H_searchBooks
| H_getBookById
| H_addReview
| H_updateReview
| H_deleteReview.

Inductive Middleware := M_auth | M_validateBook | M_validateReview.

Record Route := mkRoute {
  route_method : Method;
  route_path : list Segment;
  route_middleware : list Middleware;
  route_handler : Handler
}.

(** The router, in the order of registration. *)
Definition book_routes : list Route :=
  [ mkRoute POST [] [M_auth; M_validateBook] H_createBook;
    mkRoute GET [] [] H_getAllBooks;
    mkRoute GET [Lit "search"] [] H_searchBooks;
    mkRoute GET [Par "id"] [] H_getBookById;
    mkRoute POST [Par "id"; Lit "reviews"] [M_auth; M_validateReview] H_addReview;
    mkRoute PUT [Lit "reviews"; Lit "bookId"] [M_auth; M_validateReview]
            H_updateReview;
    mkRoute DELETE [Par "id"] [M_auth] H_deleteReview ].

(** The match of a route path against the segments of a request path
    below the mount point: the bindings of the named parameters.  Literals
    compare without case, as the router's default has it. *)
Fixpoint match_path (pat : list Segment) (path : list string)
  : option (list (string * string)) :=
  match pat, path with
  | [], [] => Some []
  | Lit s :: pat', x :: path' =>
      if (lower s =? lower x)%string then match_path pat' path' else None
  | Par name :: pat', x :: path' =>
      if notEmpty x
      then option_map (cons (name, x)) (match_path pat' path')
      else None
  | _, _ => None
  end.

Fixpoint dispatch (routes : list Route) (m : Method) (path : list string)
  : option (Route * list (string * string)) :=
  match routes with
  | [] => None
  | r :: routes' =>
      if Method_eqb (route_method r) m then
        match match_path (route_path r) path with
        | Some bound => Some (r, bound)
        | None => dispatch routes' m path
        end
      else dispatch routes' m path
  end.

(** [req.params[name]] *)
Fixpoint param (name : string) (bound : list (string * string)) : option string :=
  match bound with
  | [] => None
  | (k, v) :: bound' => if (k =? name)%string then Some v else param name bound'
  end.

(** The handler a request reaches, with [req.params.id] and
    [req.params.reviewId] as the handler reads them. *)
Definition routed (m : Method) (path : list string)
  : option (Handler * option string * option string) :=
  match dispatch book_routes m path with
  | Some (r, bound) => Some (route_handler r, param "id" bound, param "reviewId" bound)
  | None => None
  end.

(** ** Properties of documents and worlds *)

(** The derived fields agree with the reviews. *)
Definition consistent (b : Book) : Prop :=
  match reviews b with
  | [] => averageRating b = 0%Q /\ totalReviews b = 0
  | _ :: _ =>
      (averageRating b == quotient_spec (reviews b))%Q
      /\ totalReviews b = Z.of_nat (length (reviews b))
  end.

(** No user has two reviews in the collection of the book. *)
Definition one_review_per_user (b : Book) : Prop :=
  NoDup (map user (reviews b)).

(** What every stored document satisfies, [n] being the next ObjectId. *)
Record book_ok (n : ObjectId) (b : Book) : Prop := mk_book_ok {
  ok_valid : validate false b = true;
  ok_derived : updateRating b = b;
  ok_id : (book_id b < n)%N;
  ok_review_ids : Forall (fun r => (review_id r < n)%N) (reviews b)
}.

Record world_ok (w : World) : Prop := mk_world_ok {
  ok_books : Forall (book_ok (next_oid w)) (books w);
  ok_book_nodup : NoDup (map book_id (books w))
}.

(** ** Query parameters, as the specification words them *)

Definition is_digit (c : ascii) : bool :=
  let n := nat_of_ascii c in ((48 <=? n) && (n <=? 57))%nat.

(** The text begins, after white space and a sign, with a decimal digit. *)
Definition numeric (s : string) : bool :=
  match snd (strip_sign (trimStart s)) with
  | String c _ => is_digit c
  | EmptyString => false
  end.

Fixpoint all_zeros (s : string) : bool :=
  match s with
  | String c s' =>
      (c =? "0")%char
      && match s' with EmptyString => true | _ => all_zeros s' end
  | EmptyString => false
  end.

(** The text is, after white space and a sign, a numeral of zero. *)
Definition zero (s : string) : bool :=
  all_zeros (snd (strip_sign (trimStart s))).

(** A parameter that is missing, non-numeric, or zero. *)
Definition defaulted (p : option string) : Prop :=
  match p with
  | None => True
  | Some s => numeric s = false \/ zero s = true
  end.

(** A parameter read as [v]: defaulted with [v] the default [d], or a
    text that [parseInt] reads as [v], at least 1. *)
Definition reads (p : option string) (d v : Z) : Prop :=
  (defaulted p /\ v = d) \/ (parseInt p = Some v /\ 1 <= v).

(** A filter of the listing: absent or empty, or a text to find. *)
Definition wanted (f : option string) (field : string) : bool :=
  match f with
  | Some text => if notEmpty text then includes_ci text field else true
  | None => true
  end.

(** Case-insensitive partial match on author and on genre. *)
Definition matching (q : ListQuery) (b : Book) : bool :=
  wanted (q_author q) (author b) && wanted (q_genre q) (genre b).

Definition plain (f : option string) : bool :=
  match f with
  | Some text => literal text
  | None => true
  end.

(** [n] is the ceiling of [total / limit]. *)
Definition is_ceiling (total limit n : Z) : Prop :=
  (n - 1) * limit < total <= n * limit.

Definition not_older (x y : Book) : Prop := (createdAt y <= createdAt x)%nat.

(** What the listing needs of the expression engine: a source without
    metacharacters compiles to the case-insensitive search of that text. *)
Definition searches_plain_text (RegExp_i : string -> option (string -> bool)) : Prop :=
  forall source, literal source = true ->
    exists test, RegExp_i source = Some test
                 /\ forall x, test x = includes_ci source x.

(** An engine that knows the sources without metacharacters only. *)
Definition plain_RegExp (source : string) : option (string -> bool) :=
  if literal source then Some (includes_ci source) else None.

(** An engine that knows, besides those, the source of one dot: any
    character but a line terminator. *)
Definition line_terminator (c : ascii) : bool :=
  (c =? "010")%char || (c =? "013")%char.

Definition dot_RegExp (source : string) : option (string -> bool) :=
  if (source =? ".")%string
  then Some (fun x => existsb (fun c => negb (line_terminator c))
                              (list_ascii_of_string x))
  else plain_RegExp source.

(** What a filter of the listing asks of a field: nothing when it is
    absent or empty, otherwise the test of the expression it compiles to. *)
Definition asks (RegExp_i : string -> option (string -> bool))
           (f : option string) (test : string -> bool) : Prop :=
  match f with
  | Some (String c s) => RegExp_i (String c s) = Some test
  | _ => forall x, test x = true
  end.

(** A filter that is there and does not compile. *)
Definition not_an_expression (RegExp_i : string -> option (string -> bool))
           (f : option string) : Prop :=
  exists c s, f = Some (String c s) /\ RegExp_i (String c s) = None.

(** The integers a Number holds exactly. *)
Definition exact (z : Z) : Prop := Z.abs z < 2 ^ 53.

(** The route parameters as the handlers read them, [castObjectId]
    being the driver's reading of a text as an ObjectId. *)
Section Binding.
Variable castObjectId : string -> option ObjectId.

Definition read_id (s : string) : IdParam :=
  match castObjectId s with
  | Some oid => Wellformed oid
  | None => Malformed
  end.

Definition params_of (id reviewId : option string) : Params :=
  mkParams (option_map read_id id) (option_map read_id reviewId).
End Binding.

(** [x] is at least as relevant to the query as [y]. *)
Definition as_relevant (textScore : string -> string -> string -> option Q)
           (query : string) (x y : Book) : Prop :=
  (relevance textScore query y <= relevance textScore query x)%Q.

(** The text search of the query on title and author finds the book. *)
Definition hit (textScore : string -> string -> string -> option Q)
           (query : string) (b : Book) : Prop :=
  exists s, textScore query (title b) (author b) = Some s.

(** The search finds both books and scores [x] at least as high as [y]. *)
Definition outranks (textScore : string -> string -> string -> option Q)
           (query : string) (x y : Book) : Prop :=
  exists sx sy,
    textScore query (title x) (author x) = Some sx
    /\ textScore query (title y) (author y) = Some sy
    /\ (sy <= sx)%Q.

(** ** Sample requests *)

Definition dune : BookBody :=
  mkBookBody (Some "Dune") (Some "Frank Herbert") (Some "Science Fiction")
             (Some "Arrakis") [] None None None None.

(** A body of [POST /books] that carries two reviews of user 7. *)
Definition twice_reviewed : BookBody :=
  mkBookBody (Some "Dune") (Some "Frank Herbert") (Some "Science Fiction")
             (Some "Arrakis")
             [mkReviewInput 7 5 "superb" None; mkReviewInput 7 1 "dull" None]
             None None None None.

(** A body of [POST /books] whose two reviews, of the users 7 and 8,
    carry the same [_id]. *)
Definition shared_review_id : BookBody :=
  mkBookBody (Some "Dune") (Some "Frank Herbert") (Some "Science Fiction")
             (Some "Arrakis")
             [mkReviewInput 7 5 "superb" (Some 1%N);
              mkReviewInput 8 2 "dull" (Some 1%N)]
             None None None None.

Definition at_book (i : ObjectId) : Params :=
  mkParams (Some (Wellformed i)) None.

Definition at_review (i r : ObjectId) : Params :=
  mkParams (Some (Wellformed i)) (Some (Wellformed r)).

Definition review_by (u i : ObjectId) (z : Z) (c : string) : ReviewRequest :=
  mkReviewRequest u (at_book i) (mkReviewBody (Some z) (Some c)).

(** Fifteen books, created at the times 0 to 14. *)
Definition fifteen_books : World :=
  run (map (fun now => CreateBook now dune) (seq 0 15)) init_world.

(** One book, of Frank Herbert. *)
Definition one_book : World := run [CreateBook 0 dune] init_world.

(** A score for the samples: 1 when the title is the query. *)
Definition title_is (query title author : string) : option Q :=
  if (query =? title)%string then Some 1%Q else None.

(** One book, with the reviews of users 7 and 8. *)
Definition two_reviews : World :=
  run [CreateBook 0 dune; AddReview (review_by 7 0 5 "superb");
       AddReview (review_by 8 0 2 "dull")] init_world.

(** ** Further properties of documents, requests and answers *)

(** The bounds and the required paths of the two schemas. *)
Definition review_within_schema (r : Review) : Prop :=
  1 <= rating r <= 5 /\ comment r <> "".

Definition within_schema (b : Book) : Prop :=
  title b <> "" /\ author b <> "" /\ genre b <> "" /\ description b <> ""
  /\ Forall review_within_schema (reviews b)
  /\ (0 <= averageRating b <= 5)%Q
  /\ (reviews b <> [] -> (1 <= averageRating b)%Q).

(** The document an answer carries. *)
Definition document_of (r : Response) : option Book :=
  match payload r with
  | BookDoc b => Some b
  | MessageBook _ b => Some b
  | _ => None
  end.

(** The books an answer lists. *)
Definition found_of (r : Response) : list Book :=
  match payload r with
  | Page found _ _ _ => found
  | BookList found => found
  | _ => []
  end.

(** The handlers that write to the collection. *)
Definition writes (h : Handler) : bool :=
  match h with
  | H_createBook | H_addReview | H_updateReview | H_deleteReview => true
  | H_getAllBooks | H_searchBooks | H_getBookById => false
  end.

(** A text of white space only, the empty text included; a field that is
    absent or such a text. *)
Definition blank (s : string) : bool :=
  forallb is_space (list_ascii_of_string s).

Definition missing_or_blank (f : option string) : bool :=
  match f with
  | Some s => blank s
  | None => true
  end.

(** No white space at either end of the text. *)
Definition no_outer_space (s : string) : Prop :=
  match list_ascii_of_string s with
  | [] => True
  | c :: l => is_space c = false /\ is_space (last l c) = false
  end.

(** Every text the handlers store came through a [trim]. *)
Definition texts_trimmed (b : Book) : Prop :=
  no_outer_space (title b) /\ no_outer_space (author b)
  /\ no_outer_space (genre b) /\ no_outer_space (description b)
  /\ Forall (fun r => no_outer_space (comment r)) (reviews b).

(** The bodies of [POST /books] in a sequence of requests. *)
Fixpoint created_with (P : BookBody -> Prop) (rs : list Request) : Prop :=
  match rs with
  | [] => True
  | CreateBook _ body :: rs' => P body /\ created_with P rs'
  | _ :: rs' => created_with P rs'
  end.

(** The body names no user twice among its reviews. *)
Definition reviewers_distinct (body : BookBody) : Prop :=
  NoDup (map in_user (body_reviews body)).

(** The same request with another body. *)
Definition with_body (req : ReviewRequest) (body : ReviewBody) : ReviewRequest :=
  mkReviewRequest (req_user req) (req_params req) body.

(** The reviews of the other users. *)
Definition reviews_of_others (u : ObjectId) (rs : list Review) : list Review :=
  filter (fun r => negb (user r =? u)%N) rs.

(** The page numbers 1 to [n]. *)
Definition page_numbers (n : nat) : list Z := map Z.of_nat (seq 1 n).

(** [trimStart] on the characters of a text. *)
Fixpoint drop_spaces (l : list ascii) : list ascii :=
  match l with
  | c :: l' => if is_space c then drop_spaces l' else l
  | [] => []
  end.

(** * Theorems *)

(** ** Rating recomputation *)

Lemma fold_rating_shift (rs : list Review) (acc : Z) :
  fold_left (fun sum review => sum + rating review) rs acc
  = acc + sum_ratings rs.
Proof.
  revert acc; induction rs as [|r rs IH]; intro acc; simpl.
  - lia.
  - rewrite IH. lia.
Qed.

Lemma totalRating_sum (rs : list Review) : totalRating rs = sum_ratings rs.
Proof. unfold totalRating. now rewrite fold_rating_shift. Qed.

Lemma quotient_as_fraction (n : Z) (k : nat) :
  k <> 0%nat ->
  (inject_Z n / inject_Z (Z.of_nat k) == Qmake n (Pos.of_nat k))%Q.
Proof.
  intro Hk.
  destruct k as [|k]; [congruence|].
  unfold Qeq, Qdiv, Qmult, Qinv, inject_Z.
  cbn [Qnum Qden Z.of_nat].
  rewrite Pos.of_nat_succ.
  cbn. lia.
Qed.

Lemma updateRating_reviews (b : Book) : reviews (updateRating b) = reviews b.
Proof. unfold updateRating. now destruct (length (reviews b) =? 0)%nat. Qed.

Lemma updateRating_book_id (b : Book) : book_id (updateRating b) = book_id b.
Proof. unfold updateRating. now destruct (length (reviews b) =? 0)%nat. Qed.

Lemma updateRating_set_derived (b : Book) (q : Q) (z : Z) :
  updateRating (set_derived b q z) = updateRating b.
Proof. reflexivity. Qed.

Lemma updateRating_idem (b : Book) : updateRating (updateRating b) = updateRating b.
Proof.
  unfold updateRating at 2.
  destruct (length (reviews b) =? 0)%nat; apply updateRating_set_derived.
Qed.

Lemma updateRating_consistent (b : Book) : consistent (updateRating b).
Proof.
  unfold consistent. rewrite updateRating_reviews.
  unfold updateRating.
  destruct (reviews b) as [|r rs] eqn:E.
  - split; reflexivity.
  - change (length (r :: rs) =? 0)%nat with false.
    cbn [averageRating totalReviews set_derived].
    split; [|reflexivity].
    rewrite totalRating_sum.
    apply quotient_as_fraction. discriminate.
Qed.

(** C1.  [updateRating] leaves (0, 0) on an empty collection; on any other
    it sets [averageRating] to the quotient of the sum of the ratings by
    their number and [totalReviews] to that number; reviews rated 5, 3, 4
    give the average 4 and the count 3. *)
Theorem updateRating_contract :
  (forall b,
     averageRating (updateRating (set_reviews b [])) = 0%Q
     /\ totalReviews (updateRating (set_reviews b [])) = 0)
  /\ (forall b r rs,
     (averageRating (updateRating (set_reviews b (r :: rs)))
      == quotient_spec (r :: rs))%Q
     /\ totalReviews (updateRating (set_reviews b (r :: rs)))
        = Z.of_nat (length (r :: rs)))
  /\ Qeq (averageRating (updateRating (rated [5; 3; 4]))) 4%Q
  /\ totalReviews (updateRating (rated [5; 3; 4])) = 3.
Proof.
  split; [|split; [|split]].
  - intros b. split; reflexivity.
  - intros b r rs.
    exact (updateRating_consistent (set_reviews b (r :: rs))).
  - vm_compute. reflexivity.
  - reflexivity.
Qed.

(** ** The invariant of the collection *)

Lemma validate_new_loaded (b : Book) :
  validate true b = true -> validate false b = true.
Proof.
  unfold validate. rewrite !andb_true_iff. intuition.
Qed.

Lemma validate_loaded_iff (b : Book) :
  validate false b = true <->
  (notEmpty (title b) && notEmpty (author b) && notEmpty (genre b)
   && notEmpty (description b) = true
   /\ forallb valid_review (reviews b) = true).
Proof.
  unfold validate. rewrite !andb_true_iff. intuition.
Qed.

Lemma validate_set_reviews (b : Book) (rs : list Review) :
  validate false b = true ->
  forallb valid_review rs = true ->
  validate false (set_reviews b rs) = true.
Proof.
  rewrite !validate_loaded_iff. cbn [title author genre description reviews set_reviews].
  intuition.
Qed.

Lemma validate_updateRating (b : Book) :
  validate false (updateRating b) = validate false b.
Proof.
  unfold updateRating. now destruct (length (reviews b) =? 0)%nat.
Qed.

Lemma book_ok_mono (n m : ObjectId) (b : Book) :
  (n <= m)%N -> book_ok n b -> book_ok m b.
Proof.
  intros Hnm [V D I R]. constructor; auto.
  - lia.
  - eapply Forall_impl; [|exact R]. cbn. intros; lia.
Qed.

Lemma book_ok_recomputed (n : ObjectId) (b : Book) (rs : list Review) :
  validate false b = true ->
  (book_id b < n)%N ->
  forallb valid_review rs = true ->
  Forall (fun r => (review_id r < n)%N) rs ->
  book_ok n (updateRating (set_reviews b rs)).
Proof.
  intros V I VR R. constructor.
  - rewrite validate_updateRating. now apply validate_set_reviews.
  - apply updateRating_idem.
  - now rewrite updateRating_book_id.
  - now rewrite updateRating_reviews.
Qed.

Lemma save_inv (isNew : bool) (b : Book) (w w' : World) (b' : Book) :
  save isNew b w = Some (w', b') ->
  validate isNew b = true
  /\ b' = updateRating b
  /\ w' = (if isNew then insertOne b' w else updateOne b' w).
Proof.
  unfold save, pre_save. destruct (validate isNew b); [|discriminate].
  destruct (isNew && id_in_use (book_id (updateRating b)) w); [discriminate|].
  intro E; injection E as <- <-. auto.
Qed.

Lemma findById_In (w : World) (i : ObjectId) (b : Book) :
  findById w i = Some b -> In b (books w) /\ book_id b = i.
Proof.
  unfold findById. intro E. apply find_some in E. destruct E as [Hin Hid].
  split; [exact Hin|]. now apply N.eqb_eq.
Qed.

Lemma findById_ok (w : World) (i : ObjectId) (b : Book) :
  world_ok w -> findById w i = Some b -> book_ok (next_oid w) b.
Proof.
  intros [Hb _] E. apply findById_In in E. destruct E as [Hin _].
  rewrite Forall_forall in Hb. now apply Hb.
Qed.

Lemma world_ok_drawn (n : N) (w : World) : world_ok w -> world_ok (drawn n w).
Proof.
  intros [Hb Hn]. constructor; cbn; [|exact Hn].
  eapply Forall_impl; [|exact Hb].
  intros b. apply book_ok_mono. lia.
Qed.

Lemma replaced_ids (b : Book) (l : list Book) :
  map book_id (map (fun d => if (book_id d =? book_id b)%N then b else d) l)
  = map book_id l.
Proof.
  induction l as [|d l IH]; cbn; [reflexivity|].
  rewrite IH. destruct (N.eqb_spec (book_id d) (book_id b)) as [E|_]; congruence.
Qed.

Lemma world_ok_updateOne (b : Book) (w : World) :
  world_ok w -> book_ok (next_oid w) b -> world_ok (updateOne b w).
Proof.
  intros [Hb Hn] Ok. constructor; cbn.
  - rewrite Forall_forall in *. intros d Hd.
    apply in_map_iff in Hd. destruct Hd as [d0 [E Hd0]].
    destruct (book_id d0 =? book_id b)%N; subst; auto.
  - now rewrite replaced_ids.
Qed.

Lemma world_ok_insertOne (b : Book) (w : World) :
  world_ok w -> book_ok (next_oid w) b ->
  (forall d, In d (books w) -> book_id d <> book_id b) ->
  world_ok (insertOne b w).
Proof.
  intros [Hb Hn] Ok Fresh. constructor; cbn.
  - apply Forall_app. split; [exact Hb|]. constructor; [exact Ok|constructor].
  - rewrite map_app. cbn.
    apply NoDup_app_remove_l with (l := []). cbn.
    apply Permutation_NoDup with (l := book_id b :: map book_id (books w)).
    + apply Permutation_cons_append.
    + constructor; [|exact Hn].
      intro Hin. apply in_map_iff in Hin. destruct Hin as [d [E Hd]].
      now apply (Fresh d Hd).
Qed.

Lemma above_ge (ids : list ObjectId) (n : ObjectId) : (n <= above ids n)%N.
Proof.
  unfold above. induction ids as [|i ids IH]; cbn [fold_right]; [lia|].
  pose proof (N.le_max_r (N.succ i) (fold_right (fun i m => N.max (N.succ i) m) n ids)).
  lia.
Qed.

Lemma above_gt (ids : list ObjectId) (n i : ObjectId) :
  In i ids -> (i < above ids n)%N.
Proof.
  unfold above. induction ids as [|j ids IH]; cbn [fold_right In]; [contradiction|].
  pose proof (N.le_max_l (N.succ j) (fold_right (fun i m => N.max (N.succ i) m) n ids)).
  pose proof (N.le_max_r (N.succ j) (fold_right (fun i m => N.max (N.succ i) m) n ids)).
  intros [->|Hi]; [lia|]. specialize (IH Hi). lia.
Qed.

Lemma cast_reviews_ids (ins : list ReviewInput) (o n : ObjectId) :
  (o + N.of_nat (length ins) <= n)%N ->
  (forall i x, In i ins -> in_id i = Some x -> (x < n)%N) ->
  Forall (fun r => (review_id r < n)%N) (cast_reviews ins o).
Proof.
  revert o. induction ins as [|i ins IH]; intros o B Sent;
    cbn [cast_reviews length] in *; constructor.
  - cbn [review_id]. unfold id_or. destruct (in_id i) as [x|] eqn:E.
    + apply (Sent i x); [now left|exact E].
    + lia.
  - apply IH; [lia|]. intros j x Hj. apply Sent. now right.
Qed.

Lemma sent_ids_book (body : BookBody) (x : ObjectId) :
  body_id body = Some x -> In x (sent_ids body).
Proof.
  intro E. unfold sent_ids. rewrite E. now left.
Qed.

Lemma sent_ids_review (body : BookBody) (i : ReviewInput) (x : ObjectId) :
  In i (body_reviews body) -> in_id i = Some x -> In x (sent_ids body).
Proof.
  intros Hi E. unfold sent_ids. apply in_or_app. right.
  apply in_flat_map. exists i. split; [exact Hi|]. rewrite E. now left.
Qed.

Lemma save_new_unused (b : Book) (w w' : World) (b' : Book) :
  save true b w = Some (w', b') ->
  forall d, In d (books w) -> book_id d <> book_id b'.
Proof.
  unfold save, pre_save. destruct (validate true b); [|discriminate].
  cbn [andb]. destruct (id_in_use (book_id (updateRating b)) w) eqn:U; [discriminate|].
  intro E. injection E as _ <-. intros d Hd Eid.
  unfold id_in_use in U.
  assert (T : existsb (fun d => (book_id d =? book_id (updateRating b))%N)
                      (books w) = true).
  { apply existsb_exists. exists d. split; [exact Hd|]. now apply N.eqb_eq. }
  congruence.
Qed.

Lemma cast_reviews_valid (isNew : bool) (b : Book) :
  validate isNew b = true -> forallb valid_review (reviews b) = true.
Proof.
  unfold validate. rewrite !andb_true_iff. intuition.
Qed.

(** Pulling reviews keeps distinct keys distinct. *)
Lemma pull_keeps_distinct {K : Type} (key : Review -> K) (r : ObjectId)
      (rs : list Review) :
  NoDup (map key rs) -> NoDup (map key (pull r rs)).
Proof.
  unfold pull. induction rs as [|v rs IH]; cbn [map filter]; intro U.
  - exact U.
  - apply NoDup_cons_iff in U. destruct U as [Fresh U].
    destruct (negb (review_id v =? r)%N); cbn [map]; [|now apply IH].
    apply NoDup_cons; [|now apply IH].
    contradict Fresh.
    apply in_map_iff in Fresh. destruct Fresh as (y & Ey & Hy).
    apply filter_In in Hy. apply in_map_iff. exists y. tauto.
Qed.

Lemma assign_first_ids (u : ObjectId) (z : Z) (c : string) (rs : list Review) :
  map review_id (assign_first u z c rs) = map review_id rs.
Proof.
  induction rs as [|r rs IH]; cbn; [reflexivity|].
  destruct (user r =? u)%N; cbn; congruence.
Qed.

Lemma assign_first_users (u : ObjectId) (z : Z) (c : string) (rs : list Review) :
  map user (assign_first u z c rs) = map user rs.
Proof.
  induction rs as [|r rs IH]; cbn; [reflexivity|].
  destruct (user r =? u)%N; cbn; congruence.
Qed.

Lemma Forall_review_ids (n : ObjectId) (rs : list Review) :
  Forall (fun r => (review_id r < n)%N) rs <->
  Forall (fun i => (i < n)%N) (map review_id rs).
Proof. now rewrite Forall_map. Qed.

Lemma save_set_reviews_ok (book : Book) (rs : list Review) (w w2 : World)
      (saved : Book) :
  world_ok w -> book_ok (next_oid w) book ->
  Forall (fun r => (review_id r < next_oid w)%N) rs ->
  save false (set_reviews book rs) w = Some (w2, saved) ->
  world_ok w2.
Proof.
  intros Ok Bk R S.
  apply save_inv in S. destruct S as (V & -> & ->).
  apply world_ok_updateOne; [exact Ok|].
  apply book_ok_recomputed; auto.
  - apply Bk.
  - apply Bk.
  - exact (cast_reviews_valid false _ V).
Qed.

Lemma pushed_ids_ok (book : Book) (w : World) (r : Review) :
  book_ok (next_oid w) book ->
  review_id r = next_oid w ->
  Forall (fun v => (review_id v < next_oid (drawn 1 w))%N) (reviews book ++ [r]).
Proof.
  intros Bk Er. destruct Bk as [_ _ _ R].
  apply Forall_app. split.
  - eapply Forall_impl; [|exact R]. cbn. intros; lia.
  - constructor; [cbn; lia|constructor].
Qed.

Lemma world_ok_raised (n : ObjectId) (w : World) :
  (next_oid w <= n)%N -> world_ok w -> world_ok (mkWorld (books w) n).
Proof.
  intros Hn [Hb U]. constructor; cbn; [|exact U].
  eapply Forall_impl; [|exact Hb].
  intros b. now apply book_ok_mono.
Qed.

Lemma createBook_ok (now : nat) (body : BookBody) (w : World) :
  world_ok w -> world_ok (fst (createBook now body w)).
Proof.
  intro Ok. unfold createBook.
  destruct (validateBook body); cbn [negb]; [|exact Ok].
  set (start := above (sent_ids body) (next_oid w)).
  assert (Ok1 : world_ok (drawn (1 + N.of_nat (length (body_reviews body)))
                                (mkWorld (books w) start))).
  { apply world_ok_drawn, world_ok_raised; [apply above_ge|exact Ok]. }
  destruct (save true _ _) as [[w2 saved]|] eqn:S; cbn [fst]; [|exact Ok1].
  pose proof (save_new_unused _ _ _ _ S) as Unused.
  apply save_inv in S. destruct S as (V & -> & ->).
  apply world_ok_insertOne; [exact Ok1| |exact Unused].
  constructor.
  - rewrite validate_updateRating. now apply validate_new_loaded.
  - apply updateRating_idem.
  - rewrite updateRating_book_id. cbn [book_id new_Book next_oid drawn].
    unfold id_or. destruct (body_id body) as [x|] eqn:E; [|lia].
    pose proof (above_gt (sent_ids body) (next_oid w) x (sent_ids_book body x E)).
    fold start in H. lia.
  - rewrite updateRating_reviews. cbn [reviews new_Book next_oid drawn].
    apply cast_reviews_ids; [lia|].
    intros i x Hi E.
    pose proof (above_gt (sent_ids body) (next_oid w) x (sent_ids_review body i x Hi E)).
    fold start in H. lia.
Qed.

Lemma addReview_ok (req : ReviewRequest) (w : World) :
  world_ok w -> world_ok (fst (addReview req w)).
Proof.
  intro Ok. unfold addReview.
  destruct (validateReview (req_body req)) as [[z c]|]; [|exact Ok].
  destruct (param_id (req_params req)) as [[|i]|]; try exact Ok.
  destruct (findById w i) as [book|] eqn:F; [|exact Ok].
  destruct (review_of (req_user req) (reviews book)); [exact Ok|].
  pose proof (findById_ok _ _ _ Ok F) as Bk.
  destruct (save false _ _) as [[w2 saved]|] eqn:S; cbn [fst].
  - pose proof (pushed_ids_ok book w (mkReview (next_oid w) (req_user req) z c) Bk eq_refl)
      as R.
    eapply save_set_reviews_ok; [| |exact R|exact S].
    + now apply world_ok_drawn.
    + eapply book_ok_mono; [|exact Bk]. cbn. lia.
  - now apply world_ok_drawn.
Qed.

Lemma updateReview_ok (req : ReviewRequest) (w : World) :
  world_ok w -> world_ok (fst (updateReview req w)).
Proof.
  intro Ok. unfold updateReview.
  destruct (validateReview (req_body req)) as [[z c]|]; [|exact Ok].
  destruct (param_id (req_params req)) as [[|i]|]; try exact Ok.
  destruct (findById w i) as [book|] eqn:F; [|exact Ok].
  pose proof (findById_ok _ _ _ Ok F) as Bk.
  destruct (review_of (req_user req) (reviews book)).
  - destruct (save false _ _) as [[w2 saved]|] eqn:S; cbn [fst]; [|exact Ok].
    eapply save_set_reviews_ok; [exact Ok|exact Bk| |exact S].
    apply Forall_review_ids. rewrite assign_first_ids.
    apply Forall_review_ids. apply Bk.
  - destruct (save false _ _) as [[w2 saved]|] eqn:S; cbn [fst].
    + pose proof (pushed_ids_ok book w (mkReview (next_oid w) (req_user req) z c) Bk eq_refl)
        as R.
      eapply save_set_reviews_ok; [| |exact R|exact S].
      * now apply world_ok_drawn.
      * eapply book_ok_mono; [|exact Bk]. cbn. lia.
    + now apply world_ok_drawn.
Qed.

Lemma deleteReview_ok (u : ObjectId) (params : Params) (w : World) :
  world_ok w -> world_ok (fst (deleteReview u params w)).
Proof.
  intro Ok. unfold deleteReview.
  destruct (param_id params) as [[|i]|]; try exact Ok.
  destruct (findById w i) as [book|] eqn:F; [|exact Ok].
  pose proof (findById_ok _ _ _ Ok F) as Bk.
  destruct (reviews_id (param_reviewId params) (reviews book)) as [review|];
    [|exact Ok].
  destruct (negb (user review =? u)%N); [exact Ok|].
  destruct (save false _ _) as [[w2 saved]|] eqn:S; cbn [fst]; [|exact Ok].
  eapply save_set_reviews_ok; [exact Ok|exact Bk| |exact S].
  unfold pull. apply Forall_forall. intros v Hv. apply filter_In in Hv.
  destruct Bk as [_ _ _ R]. rewrite Forall_forall in R. now apply R.
Qed.

Lemma handle_ok (w : World) (r : Request) :
  world_ok w -> world_ok (fst (handle w r)).
Proof.
  destruct r; cbn [handle].
  - apply createBook_ok.
  - apply addReview_ok.
  - apply updateReview_ok.
  - apply deleteReview_ok.
Qed.

Lemma run_ok (rs : list Request) (w : World) :
  world_ok w -> world_ok (run rs w).
Proof.
  revert w. induction rs as [|r rs IH]; intros w Ok; cbn; [exact Ok|].
  apply IH. now apply handle_ok.
Qed.

Lemma init_ok : world_ok init_world.
Proof. constructor; cbn; constructor. Qed.

Lemma reachable_ok (w : World) : reachable w -> world_ok w.
Proof. intros [rs <-]. apply run_ok, init_ok. Qed.

(** ** Derived fields of persisted books *)

Lemma saved_consistent (isNew : bool) (b : Book) (w w' : World) (b' : Book) :
  save isNew b w = Some (w', b') -> consistent b'.
Proof.
  intro S. apply save_inv in S. destruct S as (_ & -> & _).
  apply updateRating_consistent.
Qed.

Lemma ok_consistent (n : ObjectId) (b : Book) : book_ok n b -> consistent b.
Proof. intros [_ D _ _]. rewrite <- D. apply updateRating_consistent. Qed.

Ltac saved_case :=
  match goal with
  | |- context [save ?n ?b ?w] =>
      let S := fresh "S" in
      destruct (save n b w) as [[? ?]|] eqn:S; cbn;
      [exact (saved_consistent _ _ _ _ _ S)|exact I]
  end.

(** C2.  After any sequence of createBook, addReview, updateReview and
    deleteReview requests, whatever their bodies carry, every stored book
    has the average and the count that its reviews give; and in any world
    the document a write answers with is the recomputed one. *)
Theorem persisted_books_consistent :
  (forall rs : list Request, Forall consistent (books (run rs init_world)))
  /\ (forall (w : World) (r : Request),
        match payload (snd (handle w r)) with
        | BookDoc b | MessageBook _ b => consistent b
        | _ => True
        end).
Proof.
  split.
  - intro rs.
    destruct (run_ok rs init_world init_ok) as [Hb _].
    eapply Forall_impl; [|exact Hb].
    intros b. apply ok_consistent.
  - intros w [now body|req|req|u params]; cbn [handle].
    + unfold createBook.
      destruct (validateBook body); cbn [negb]; [|exact I]. saved_case.
    + unfold addReview.
      destruct (validateReview (req_body req)) as [[z c]|]; [|exact I].
      destruct (param_id (req_params req)) as [[|i]|]; try exact I.
      destruct (findById w i) as [book|]; [|exact I].
      destruct (review_of (req_user req) (reviews book)); [exact I|].
      saved_case.
    + unfold updateReview.
      destruct (validateReview (req_body req)) as [[z c]|]; [|exact I].
      destruct (param_id (req_params req)) as [[|i]|]; try exact I.
      destruct (findById w i) as [book|]; [|exact I].
      destruct (review_of (req_user req) (reviews book)); saved_case.
    + unfold deleteReview.
      destruct (param_id params) as [[|i]|]; try exact I.
      destruct (findById w i) as [book|]; [|exact I].
      destruct (reviews_id (param_reviewId params) (reviews book)) as [review|];
        [|exact I].
      destruct (negb (user review =? u)%N); [exact I|].
      saved_case.
Qed.

(** ** Lookups in the collection *)

Lemma findById_absent (w : World) (i : ObjectId) :
  (forall b, In b (books w) -> book_id b <> i) -> findById w i = None.
Proof.
  intro H. unfold findById.
  destruct (find _ (books w)) as [b|] eqn:E; [|reflexivity].
  apply find_some in E. destruct E as [Hin Hid].
  apply N.eqb_eq in Hid. now destruct (H b Hin).
Qed.

Lemma find_unique {A : Type} (key : A -> N) (l : list A) (x : A) :
  NoDup (map key l) -> In x l ->
  find (fun y => (key y =? key x)%N) l = Some x.
Proof.
  induction l as [|y l IH]; cbn; intros U Hin; [contradiction|].
  inversion U as [|? ? Hy Hl]; subst.
  destruct Hin as [->|Hin].
  - now rewrite N.eqb_refl.
  - destruct (N.eqb_spec (key y) (key x)) as [E|_]; [|now apply IH].
    exfalso. apply Hy. rewrite E. now apply in_map.
Qed.

Lemma findById_present (w : World) (b : Book) :
  world_ok w -> In b (books w) -> findById w (book_id b) = Some b.
Proof.
  intros [_ U] Hin. unfold findById. now apply (find_unique book_id).
Qed.

Lemma find_replaced (b : Book) (l : list Book) (i : ObjectId) :
  find (fun d => (book_id d =? i)%N)
       (map (fun d => if (book_id d =? book_id b)%N then b else d) l)
  = if (i =? book_id b)%N
    then match find (fun d => (book_id d =? i)%N) l with
         | Some _ => Some b
         | None => None
         end
    else find (fun d => (book_id d =? i)%N) l.
Proof.
  destruct (N.eqb_spec i (book_id b)) as [Ei|Ni].
  - subst i. induction l as [|d l IH]; cbn; [reflexivity|].
    destruct (N.eqb_spec (book_id d) (book_id b)) as [E|NE].
    + now rewrite N.eqb_refl.
    + destruct (N.eqb_spec (book_id d) (book_id b)); [contradiction|exact IH].
  - induction l as [|d l IH]; cbn; [reflexivity|].
    destruct (N.eqb_spec (book_id d) (book_id b)) as [E|NE].
    + destruct (N.eqb_spec (book_id b) i) as [Eb|_]; [congruence|].
      destruct (N.eqb_spec (book_id d) i) as [Ed|_]; [congruence|exact IH].
    + destruct (N.eqb_spec (book_id d) i); [reflexivity|exact IH].
Qed.

Lemma findById_updateOne_same (w : World) (b old : Book) :
  findById w (book_id b) = Some old ->
  findById (updateOne b w) (book_id b) = Some b.
Proof.
  unfold findById, updateOne. cbn [books]. intro E.
  now rewrite find_replaced, N.eqb_refl, E.
Qed.

Lemma findById_updateOne_found (w : World) (b old : Book) (i : ObjectId) :
  findById w i = Some old -> book_id b = i ->
  findById (updateOne b w) i = Some b.
Proof. intros F <-. eapply findById_updateOne_same. exact F. Qed.

Lemma findById_updateOne_other (w : World) (b : Book) (j : ObjectId) :
  j <> book_id b -> findById (updateOne b w) j = findById w j.
Proof.
  unfold findById, updateOne. cbn [books]. intro NE.
  rewrite find_replaced.
  destruct (N.eqb_spec j (book_id b)); [contradiction|reflexivity].
Qed.

Lemma pull_unique (rs : list Review) (r : Review) :
  NoDup (map review_id rs) -> In r rs ->
  exists pre post, rs = pre ++ r :: post /\ pull (review_id r) rs = pre ++ post.
Proof.
  unfold pull.
  induction rs as [|v rs IH]; cbn [map filter In]; intros U Hin; [contradiction|].
  inversion U as [|? ? Hv Hl]; subst.
  destruct Hin as [->|Hin].
  - exists [], rs. split; [reflexivity|].
    rewrite N.eqb_refl. cbn [negb app].
    clear IH U Hl.
    induction rs as [|x rs IH]; cbn [filter]; [reflexivity|].
    destruct (N.eqb_spec (review_id x) (review_id r)) as [E|_]; cbn [negb].
    + exfalso. apply Hv. left. exact E.
    + f_equal. apply IH. intro H. apply Hv. now right.
  - destruct (IH Hl Hin) as (pre & post & E1 & E2).
    exists (v :: pre), post. split; [cbn; congruence|].
    destruct (N.eqb_spec (review_id v) (review_id r)) as [E|_]; cbn [negb].
    + exfalso. apply Hv. rewrite E. now apply in_map.
    + now rewrite E2.
Qed.

Lemma valid_pull (r : ObjectId) (rs : list Review) :
  forallb valid_review rs = true -> forallb valid_review (pull r rs) = true.
Proof.
  rewrite !forallb_forall. intros H v Hv. apply H.
  unfold pull in Hv. now apply filter_In in Hv.
Qed.

(** ** One review per user *)

Lemma review_of_none (u : ObjectId) (rs : list Review) :
  review_of u rs = None -> ~ In u (map user rs).
Proof.
  unfold review_of. intros E Hin.
  apply in_map_iff in Hin. destruct Hin as [r [Er Hr]].
  pose proof (find_none _ _ E r Hr) as H. cbn in H.
  apply N.eqb_neq in H. contradiction.
Qed.

Lemma review_of_some (u : ObjectId) (rs : list Review) (r : Review) :
  In r rs -> user r = u -> exists r', review_of u rs = Some r'.
Proof.
  intros Hin Eu. unfold review_of.
  destruct (find _ rs) as [r'|] eqn:E; [now exists r'|].
  pose proof (find_none _ _ E r Hin) as H. cbn in H.
  apply N.eqb_neq in H. contradiction.
Qed.

(** addReview refuses the second review of a user, before any write. *)
Lemma addReview_duplicate (w : World) (u i : ObjectId) (body : ReviewBody)
      (book : Book) (r : Review) :
  validateReview body <> None ->
  findById w i = Some book -> In r (reviews book) -> user r = u ->
  addReview (mkReviewRequest u (at_book i) body) w
  = (w, respond 400 (Message "You have already reviewed this book")).
Proof.
  intros V F Hin Eu. unfold addReview. cbn [req_body req_params req_user at_book param_id].
  destruct (validateReview body) as [[z c]|]; [|congruence].
  rewrite F.
  destruct (review_of_some u (reviews book) r Hin Eu) as [r' ->].
  reflexivity.
Qed.

Lemma one_per_user_pushed (book : Book) (r : Review) :
  one_review_per_user book ->
  review_of (user r) (reviews book) = None ->
  one_review_per_user (updateRating (set_reviews book (reviews book ++ [r]))).
Proof.
  unfold one_review_per_user. intros U E.
  rewrite updateRating_reviews. cbn [reviews set_reviews].
  rewrite map_app. cbn.
  apply Permutation_NoDup with (l := user r :: map user (reviews book)).
  - apply Permutation_cons_append.
  - constructor; [|exact U]. now apply review_of_none.
Qed.

Lemma Forall_replaced (P : Book -> Prop) (b : Book) (l : list Book) :
  P b -> Forall P l ->
  Forall P (map (fun d => if (book_id d =? book_id b)%N then b else d) l).
Proof.
  intros Pb H. induction H as [|d l Pd _ IH]; cbn; constructor; auto.
  now destruct (book_id d =? book_id b)%N.
Qed.

(** The review handlers never give a user a second review on a book. *)
Lemma review_handlers_keep_one_per_user (w : World) (r : Request) :
  (forall now body, r <> CreateBook now body) ->
  Forall one_review_per_user (books w) ->
  Forall one_review_per_user (books (fst (handle w r))).
Proof.
  intros NotCreate H.
  assert (Found : forall i book, findById w i = Some book ->
                                 one_review_per_user book).
  { intros i book F. apply findById_In in F. destruct F as [Hin _].
    rewrite Forall_forall in H. now apply H. }
  destruct r as [now body|req|req|u params]; cbn [handle].
  - now destruct (NotCreate now body).
  - unfold addReview.
    destruct (validateReview (req_body req)) as [[z c]|]; [|exact H].
    destruct (param_id (req_params req)) as [[|i]|]; try exact H.
    destruct (findById w i) as [book|] eqn:F; [|exact H].
    destruct (review_of (req_user req) (reviews book)) eqn:E; [exact H|].
    destruct (save false _ _) as [[w2 saved]|] eqn:S; cbn [fst]; [|exact H].
    apply save_inv in S. destruct S as (_ & -> & ->).
    apply Forall_replaced; [|exact H].
    apply (one_per_user_pushed book (mkReview (next_oid w) (req_user req) z c));
      [exact (Found i book F)|exact E].
  - unfold updateReview.
    destruct (validateReview (req_body req)) as [[z c]|]; [|exact H].
    destruct (param_id (req_params req)) as [[|i]|]; try exact H.
    destruct (findById w i) as [book|] eqn:F; [|exact H].
    destruct (review_of (req_user req) (reviews book)) eqn:E.
    + destruct (save false _ _) as [[w2 saved]|] eqn:S; cbn [fst]; [|exact H].
      apply save_inv in S. destruct S as (_ & -> & ->).
      apply Forall_replaced; [|exact H].
      unfold one_review_per_user. rewrite updateRating_reviews.
      cbn [reviews set_reviews]. rewrite assign_first_users.
      exact (Found i book F).
    + destruct (save false _ _) as [[w2 saved]|] eqn:S; cbn [fst]; [|exact H].
      apply save_inv in S. destruct S as (_ & -> & ->).
      apply Forall_replaced; [|exact H].
      apply (one_per_user_pushed book (mkReview (next_oid w) (req_user req) z c));
        [exact (Found i book F)|exact E].
  - unfold deleteReview.
    destruct (param_id params) as [[|i]|]; try exact H.
    destruct (findById w i) as [book|] eqn:F; [|exact H].
    destruct (reviews_id (param_reviewId params) (reviews book)) as [review|];
      [|exact H].
    destruct (negb (user review =? u)%N); [exact H|].
    destruct (save false _ _) as [[w2 saved]|] eqn:S; cbn [fst]; [|exact H].
    apply save_inv in S. destruct S as (_ & -> & ->).
    apply Forall_replaced; [|exact H].
    unfold one_review_per_user. rewrite updateRating_reviews.
    cbn [reviews set_reviews]. apply pull_keeps_distinct.
    exact (Found i book F).
Qed.

(** C3.  createBook takes the reviews of its body as they come: the body
    [twice_reviewed], sent to the empty collection, is answered 201 and
    leaves a book with two reviews of user 7. *)
Theorem createBook_stores_two_reviews_of_one_user :
  exists b,
    createBook 0 twice_reviewed init_world
    = (mkWorld [b] 3, respond 201 (BookDoc b))
    /\ map user (reviews b) = [7; 7]%N
    /\ ~ one_review_per_user b.
Proof.
  eexists. split; [vm_compute; reflexivity|]. split; [reflexivity|].
  unfold one_review_per_user. cbn. intro U.
  inversion U as [|? ? Hx _]. apply Hx. now left.
Qed.

(** ** deleteReview *)

Lemma save_loaded (book : Book) (rs : list Review) (w : World) :
  validate false book = true ->
  forallb valid_review rs = true ->
  save false (set_reviews book rs) w
  = Some (updateOne (updateRating (set_reviews book rs)) w,
          updateRating (set_reviews book rs)).
Proof.
  intros V VR. unfold save, pre_save.
  now rewrite (validate_set_reviews book rs V VR).
Qed.

Lemma reviews_id_absent (rid : option IdParam) (rs : list Review) :
  (forall r, In r rs -> rid <> Some (Wellformed (review_id r))) ->
  reviews_id rid rs = None.
Proof.
  intro H. destruct rid as [[|r0]|]; cbn; try reflexivity.
  destruct (find _ rs) as [r|] eqn:E; [|reflexivity].
  apply find_some in E. destruct E as [Hin Hid].
  apply N.eqb_eq in Hid. subst r0. now destruct (H r Hin).
Qed.

(** C4.  deleteReview removes the reviews of other users that share the
    [_id] of the requester's review: createBook stores the body
    [shared_review_id] as it comes, with one [_id] for the reviews of the
    users 7 and 8; then the deleteReview of user 7 for that id is answered
    200 and leaves the book without reviews, and the deleteReview of user 8
    for the same id, the id of that user's own review, is answered 403. *)
Theorem deleteReview_removes_review_of_another_user :
  exists w b,
    createBook 0 shared_review_id init_world = (w, respond 201 (BookDoc b))
    /\ book_id b = 2%N
    /\ map user (reviews b) = [7; 8]%N
    /\ map review_id (reviews b) = [1; 1]%N
    /\ (exists w' b',
          deleteReview 7 (at_review 2 1) w = (w', respond 200 (BookDoc b'))
          /\ reviews b' = []
          /\ findById w' 2 = Some b')
    /\ deleteReview 8 (at_review 2 1) w
       = (w, respond 403 (Message "Not authorized to delete this review")).
Proof.
  eexists. eexists. split; [vm_compute; reflexivity|].
  split; [reflexivity|]. split; [reflexivity|]. split; [reflexivity|].
  split; [|vm_compute; reflexivity].
  eexists. eexists. split; [vm_compute; reflexivity|].
  split; [reflexivity|]. vm_compute. reflexivity.
Qed.

(** X20.  On a reachable world, deleteReview answers 404 when no book has
    the id and when no review of the book has the review id; and in a book
    whose reviews have distinct ids it answers 403 when the review with the
    id is another user's, each time leaving the world as it was, and
    otherwise removes exactly that review, keeps the others in order,
    recomputes the derived fields and stores the book, the other books
    untouched. *)
Theorem deleteReview_contract (w : World) (u i : ObjectId) (rid : option IdParam) :
  reachable w ->
  let params := mkParams (Some (Wellformed i)) rid in
  ((forall b, In b (books w) -> book_id b <> i) ->
     deleteReview u params w = (w, respond 404 (Message "Book not found")))
  /\ (forall book, In book (books w) -> book_id book = i ->
      ((forall r, In r (reviews book) -> rid <> Some (Wellformed (review_id r))) ->
         deleteReview u params w = (w, respond 404 (Message "Review not found")))
      /\ (NoDup (map review_id (reviews book)) ->
          forall r, In r (reviews book) -> rid = Some (Wellformed (review_id r)) ->
          (user r <> u ->
             deleteReview u params w
             = (w, respond 403 (Message "Not authorized to delete this review")))
          /\ (user r = u ->
              exists w' saved pre post,
                deleteReview u params w = (w', respond 200 (BookDoc saved))
                /\ reviews book = pre ++ r :: post
                /\ reviews saved = pre ++ post
                /\ consistent saved
                /\ findById w' i = Some saved
                /\ (forall j, j <> i -> findById w' j = findById w j)))).
Proof.
  intros R params. pose proof (reachable_ok w R) as Ok.
  unfold deleteReview, params. cbn [param_id param_reviewId].
  split.
  - intro Absent. now rewrite (findById_absent w i Absent).
  - intros book Hin Eid. subst i.
    pose proof (findById_present w book Ok Hin) as F.
    pose proof (findById_ok w _ book Ok F) as Bk.
    rewrite F. split.
    + intro Absent. now rewrite (reviews_id_absent rid (reviews book) Absent).
    + intros Distinct r Hr ->. cbn [reviews_id].
      rewrite (find_unique review_id (reviews book) r Distinct Hr).
      split.
      * intro NE. apply N.eqb_neq in NE. now rewrite NE.
      * intro E. apply N.eqb_eq in E. rewrite E. cbn [negb].
        rewrite save_loaded;
          [|apply Bk
           |apply valid_pull; exact (cast_reviews_valid false book (ok_valid _ _ Bk))].
        destruct (pull_unique (reviews book) r Distinct Hr)
          as (pre & post & E1 & E2).
        exists (updateOne (updateRating (set_reviews book (pull (review_id r) (reviews book)))) w),
               (updateRating (set_reviews book (pull (review_id r) (reviews book)))),
               pre, post.
        split; [reflexivity|]. split; [exact E1|].
        split; [now rewrite updateRating_reviews|].
        split; [apply updateRating_consistent|].
        split.
        -- apply (findById_updateOne_found w _ book); [exact F|].
           now rewrite updateRating_book_id.
        -- intros j NE. apply findById_updateOne_other.
           now rewrite updateRating_book_id.
Qed.

Lemma two_reviews_reachable : reachable two_reviews.
Proof. eexists. reflexivity. Qed.

Lemma deleteReview_contract_witness :
  reachable two_reviews
  /\ exists w' saved,
       deleteReview 8 (at_review 0 2) two_reviews = (w', respond 200 (BookDoc saved))
       /\ map user (reviews saved) = [7%N]
       /\ findById w' 0 = Some saved.
Proof.
  split; [exact two_reviews_reachable|].
  destruct (deleteReview_contract two_reviews 8 0 (Some (Wellformed 2))
              two_reviews_reachable) as [_ Present].
  destruct (Present (updateRating
                       (mkBook 0 "Dune" "Frank Herbert" "Science Fiction" "Arrakis"
                               [mkReview 1 7 5 "superb"; mkReview 2 8 2 "dull"]
                               0%Q 0 0%nat))
                    (or_introl eq_refl) eq_refl) as [_ Found].
  assert (Distinct : NoDup (map review_id [mkReview 1 7 5 "superb";
                                            mkReview 2 8 2 "dull"])).
  { cbn. repeat constructor; cbn; intuition discriminate. }
  destruct (Found Distinct (mkReview 2 8 2 "dull") (or_intror (or_introl eq_refl))
                  eq_refl)
    as [_ Own].
  destruct (Own eq_refl) as (w' & saved & pre & post & E & E1 & E2 & _ & F & _).
  exists w', saved. split; [exact E|]. split; [|exact F].
  vm_compute in E. injection E as _ <-. reflexivity.
Defined.

(** ** updateReview *)

Lemma set_reviews_same (b : Book) : set_reviews b (reviews b) = b.
Proof. now destruct b. Qed.

Lemma replaced_twice (b : Book) (l : list Book) :
  map (fun d => if (book_id d =? book_id b)%N then b else d)
      (map (fun d => if (book_id d =? book_id b)%N then b else d) l)
  = map (fun d => if (book_id d =? book_id b)%N then b else d) l.
Proof.
  rewrite map_map. apply map_ext. intro d.
  destruct (N.eqb_spec (book_id d) (book_id b)) as [E|NE].
  - now rewrite N.eqb_refl.
  - now destruct (N.eqb_spec (book_id d) (book_id b)).
Qed.

Lemma review_of_assigned (u : ObjectId) (z : Z) (c : string) (rs : list Review)
      (r0 : Review) :
  review_of u rs = Some r0 ->
  exists r', review_of u (assign_first u z c rs) = Some r'.
Proof.
  unfold review_of. induction rs as [|r rs IH]; cbn; [discriminate|].
  destruct (user r =? u)%N eqn:E; cbn.
  - intros _. rewrite E. eauto.
  - rewrite E. exact IH.
Qed.

Lemma assign_first_idem (u : ObjectId) (z : Z) (c : string) (rs : list Review) :
  assign_first u z c (assign_first u z c rs) = assign_first u z c rs.
Proof.
  induction rs as [|r rs IH]; cbn; [reflexivity|].
  destruct (user r =? u)%N eqn:E; cbn; rewrite E; [reflexivity|].
  now rewrite IH.
Qed.

Lemma review_of_pushed (u n : ObjectId) (z : Z) (c : string) (rs : list Review) :
  review_of u rs = None ->
  review_of u (rs ++ [mkReview n u z c]) = Some (mkReview n u z c).
Proof.
  unfold review_of. induction rs as [|r rs IH]; cbn.
  - now rewrite N.eqb_refl.
  - destruct (user r =? u)%N; [discriminate|exact IH].
Qed.

Lemma assign_first_pushed (u n : ObjectId) (z : Z) (c : string) (rs : list Review) :
  review_of u rs = None ->
  assign_first u z c (rs ++ [mkReview n u z c]) = rs ++ [mkReview n u z c].
Proof.
  unfold review_of. induction rs as [|r rs IH]; cbn.
  - now rewrite N.eqb_refl.
  - destruct (user r =? u)%N; [discriminate|].
    intro E. now rewrite IH.
Qed.

Lemma valid_pushed_any_id (book : Book) (n m u : ObjectId) (z : Z) (c : string) :
  validate false (set_reviews book (reviews book ++ [mkReview n u z c]))
  = validate false (set_reviews book (reviews book ++ [mkReview m u z c])).
Proof.
  unfold validate. cbn [title author genre description reviews set_reviews].
  now rewrite !forallb_app.
Qed.

(** An update that finds the very review it would write changes nothing. *)
Lemma updateReview_settled (req : ReviewRequest) (w : World) (i : ObjectId)
      (z : Z) (c : string) (b : Book) (r : Review) :
  validateReview (req_body req) = Some (z, c) ->
  param_id (req_params req) = Some (Wellformed i) ->
  findById w i = Some b ->
  review_of (req_user req) (reviews b) = Some r ->
  assign_first (req_user req) z c (reviews b) = reviews b ->
  updateRating b = b ->
  books (fst (updateReview req w)) = books (updateOne b w)
  \/ books (fst (updateReview req w)) = books w.
Proof.
  intros V P F E A D. unfold updateReview. rewrite V, P, F, E, A, set_reviews_same.
  unfold save, pre_save. destruct (validate false b); cbn [fst].
  - left. now rewrite D.
  - now right.
Qed.

(** C5.  updateReview applied twice with the same request leaves the
    collection that one application leaves, whether the user had a review
    on the book or not, and whatever the answer of the first was. *)
Theorem updateReview_idempotent (req : ReviewRequest) (w : World) :
  books (fst (updateReview req (fst (updateReview req w))))
  = books (fst (updateReview req w)).
Proof.
  destruct (validateReview (req_body req)) as [[z c]|] eqn:V.
  2: { unfold updateReview. rewrite V. reflexivity. }
  destruct (param_id (req_params req)) as [[|i]|] eqn:P.
  1, 3: unfold updateReview; rewrite V, P; reflexivity.
  destruct (findById w i) as [book|] eqn:F.
  2: { unfold updateReview. rewrite V, P, F. cbn [fst]. now rewrite F. }
  pose proof (findById_In w i book F) as [_ Eid].
  assert (Again : forall w0 b r,
             findById w0 i = Some book ->
             book_id b = i -> updateRating b = b ->
             review_of (req_user req) (reviews b) = Some r ->
             assign_first (req_user req) z c (reviews b) = reviews b ->
             books (fst (updateReview req (updateOne b w0))) = books (updateOne b w0)).
  { intros w0 b r F0 Eb D E A.
    destruct (updateReview_settled req (updateOne b w0) i z c b r V P
                (findById_updateOne_found w0 b book i F0 Eb) E A D) as [H|H];
      rewrite H; [|reflexivity].
    unfold updateOne. cbn [books]. apply replaced_twice. }
  destruct (review_of (req_user req) (reviews book)) as [r0|] eqn:E.
  - unfold updateReview at 2 3. rewrite V, P, F, E.
    unfold save, pre_save.
    destruct (validate false _) eqn:VA; cbn [fst].
    + destruct (review_of_assigned (req_user req) z c (reviews book) r0 E) as [r' E'].
      apply (Again w _ r'); auto.
      * now rewrite updateRating_book_id.
      * apply updateRating_idem.
      * now rewrite updateRating_reviews.
      * rewrite updateRating_reviews. cbn [reviews set_reviews].
        apply assign_first_idem.
    + unfold updateReview. rewrite V, P, F, E. unfold save, pre_save.
      now rewrite VA.
  - unfold updateReview at 2 3. rewrite V, P, F, E.
    unfold save, pre_save.
    destruct (validate false _) eqn:VA; cbn [fst].
    + apply (Again (drawn 1 w) _ (mkReview (next_oid w) (req_user req) z c)); auto.
      * now rewrite updateRating_book_id.
      * apply updateRating_idem.
      * rewrite updateRating_reviews. cbn [reviews set_reviews].
        now apply review_of_pushed.
      * rewrite updateRating_reviews. cbn [reviews set_reviews].
        now apply assign_first_pushed.
    + unfold updateReview. rewrite V, P.
      change (findById (drawn 1 w) i) with (findById w i). rewrite F, E.
      unfold save, pre_save.
      rewrite (valid_pushed_any_id book (next_oid (drawn 1 w)) (next_oid w)), VA.
      reflexivity.
Qed.

(** ** addReview followed by deleteReview *)

Lemma NoDup_map_eq {A : Type} (key : A -> N) (l : list A) (x y : A) :
  NoDup (map key l) -> In x l -> In y l -> key x = key y -> x = y.
Proof.
  induction l as [|a l IH]; cbn; intros U Hx Hy E; [contradiction|].
  inversion U as [|? ? Ha Hl]; subst.
  destruct Hx as [->|Hx], Hy as [->|Hy]; auto.
  - exfalso. apply Ha. rewrite E. now apply in_map.
  - exfalso. apply Ha. rewrite <- E. now apply in_map.
Qed.








(** ** Sorted cursors *)

Section SortFacts.
Context {A : Type} (before : A -> A -> bool).
Hypothesis before_total : forall x y, before x y = true \/ before y x = true.
Hypothesis before_trans :
  forall x y z, before x y = true -> before y z = true -> before x z = true.

Lemma insert_sorted_perm (x : A) (l : list A) :
  Permutation (x :: l) (insert_sorted before x l).
Proof.
  induction l as [|y l IH]; cbn; [reflexivity|].
  destruct (before x y); [reflexivity|].
  rewrite perm_swap. now constructor.
Qed.

Lemma sort_by_perm (l : list A) : Permutation l (sort_by before l).
Proof.
  induction l as [|x l IH]; cbn; [constructor|].
  rewrite <- insert_sorted_perm. now constructor.
Qed.

Lemma insert_sorted_sorted (x : A) (l : list A) :
  StronglySorted (fun a b => before a b = true) l ->
  StronglySorted (fun a b => before a b = true) (insert_sorted before x l).
Proof.
  induction 1 as [|y l Hl IH Hy]; cbn.
  - constructor; constructor.
  - destruct (before x y) eqn:E.
    + constructor; [now constructor|].
      constructor; [exact E|].
      eapply Forall_impl; [|exact Hy]. intros z Hz.
      exact (before_trans x y z E Hz).
    + constructor; [exact IH|].
      rewrite <- insert_sorted_perm.
      constructor; [|exact Hy].
      destruct (before_total x y) as [H|H]; [congruence|exact H].
Qed.

Lemma sort_by_sorted (l : list A) :
  StronglySorted (fun a b => before a b = true) (sort_by before l).
Proof.
  induction l as [|x l IH]; cbn; [constructor|].
  now apply insert_sorted_sorted.
Qed.
End SortFacts.

Lemma StronglySorted_skipn {A : Type} (R : A -> A -> Prop) (n : nat) (l : list A) :
  StronglySorted R l -> StronglySorted R (skipn n l).
Proof.
  revert l. induction n as [|n IH]; intros l H; cbn; [exact H|].
  destruct l as [|x l]; [constructor|].
  apply IH. now inversion H.
Qed.

Lemma StronglySorted_firstn {A : Type} (R : A -> A -> Prop) (n : nat) (l : list A) :
  StronglySorted R l -> StronglySorted R (firstn n l).
Proof.
  revert l. induction n as [|n IH]; intros l H; cbn; [constructor|].
  destruct l as [|x l]; [constructor|].
  inversion H as [|? ? Hl Hx]; subst.
  constructor; [now apply IH|].
  rewrite Forall_forall in *. intros y Hy. apply Hx.
  eapply (In_nth_error) in Hy. destruct Hy as [k Hk].
  clear - Hk. revert l k Hk. induction n as [|n IH]; intros l k Hk.
  - destruct k; discriminate.
  - destruct l as [|z l]; [destruct k; discriminate|].
    destruct k as [|k]; cbn in Hk.
    + injection Hk as ->. now left.
    + right. now apply (IH l k).
Qed.

Lemma StronglySorted_impl {A : Type} (R1 R2 : A -> A -> Prop) (l : list A) :
  (forall x y, R1 x y -> R2 x y) -> StronglySorted R1 l -> StronglySorted R2 l.
Proof.
  intros HR. induction 1 as [|x l Hl IH Hx]; constructor; auto.
  eapply Forall_impl; [|exact Hx]. auto.
Qed.

Lemma newest_first_sorted (l : list Book) :
  StronglySorted not_older (sort_by newest_first l).
Proof.
  apply (StronglySorted_impl (fun x y => newest_first x y = true)).
  - intros x y. unfold newest_first, not_older. apply Nat.leb_le.
  - apply (sort_by_sorted newest_first).
    + intros x y. unfold newest_first.
      destruct (Nat.leb_spec (createdAt y) (createdAt x)); [now left|right].
      apply Nat.leb_le. lia.
    + intros x y z. unfold newest_first. rewrite !Nat.leb_le. lia.
Qed.

(** ** Reading [page] and [limit] *)

Lemma digit_of_non_digit (c : ascii) :
  is_digit c = false -> digit_of 10 c = None.
Proof.
  destruct c as [[] [] [] [] [] [] [] []]; vm_compute;
    (reflexivity || discriminate).
Qed.

Lemma parseInt_non_numeric (s : string) :
  numeric s = false -> parseInt (Some s) = None.
Proof.
  unfold numeric, parseInt.
  destruct (strip_sign (trimStart s)) as [sign s1]. cbn [snd].
  destruct s1 as [|c s']; [reflexivity|].
  intro H.
  assert (E : strip_radix (String c s') = (10, String c s')).
  { destruct c as [[] [] [] [] [] [] [] []]; try reflexivity.
    vm_compute in H. discriminate. }
  rewrite E. cbn [digits]. now rewrite (digit_of_non_digit c H).
Qed.

Lemma all_zeros_head (c : ascii) (t : string) :
  all_zeros (String c t) = true ->
  c = "0"%char /\ (t = EmptyString \/ all_zeros t = true).
Proof.
  cbn [all_zeros]. intro H. apply andb_true_iff in H. destruct H as [Hc Ht].
  apply Ascii.eqb_eq in Hc. split; [exact Hc|].
  destruct t; [now left|now right].
Qed.

Lemma digits_zeros (t : string) :
  all_zeros t = true ->
  forall acc, acc = None \/ acc = Some 0 -> digits 10 t acc = Some 0.
Proof.
  induction t as [|c t IH]; [discriminate|].
  intros H acc Hacc. apply all_zeros_head in H. destruct H as [-> Ht].
  cbn [digits]. change (digit_of 10 "0") with (Some 0). cbv beta iota.
  assert (Next : match acc with Some a => a * 10 + 0 | None => 0 end = 0)
    by (destruct Hacc as [->| ->]; reflexivity).
  rewrite Next. destruct Ht as [->|Ht]; [reflexivity|].
  apply IH; auto.
Qed.

Lemma strip_radix_zeros (t : string) :
  all_zeros t = true -> strip_radix t = (10, t).
Proof.
  destruct t as [|c t]; [discriminate|].
  intro H. apply all_zeros_head in H. destruct H as [-> [->|Ht]]; [reflexivity|].
  destruct t as [|c' t']; [discriminate|].
  apply all_zeros_head in Ht. destruct Ht as [-> _]. reflexivity.
Qed.

Lemma parseInt_zero (s : string) : zero s = true -> parseInt (Some s) = Some 0.
Proof.
  unfold zero, parseInt.
  destruct (strip_sign (trimStart s)) as [sign s1]. cbn [snd].
  intro H. rewrite (strip_radix_zeros s1 H).
  rewrite (digits_zeros s1 H None) by now left.
  now rewrite Z.mul_0_r.
Qed.

Lemma defaulted_value (p : option string) (d : Z) :
  defaulted p -> number_or (parseInt p) d = d.
Proof.
  destruct p as [s|]; cbn [defaulted].
  - intros [H|H].
    + now rewrite (parseInt_non_numeric s H).
    + now rewrite (parseInt_zero s H).
  - intros _. reflexivity.
Qed.

Lemma reads_value (p : option string) (d v : Z) :
  1 <= d -> reads p d v -> number_or (parseInt p) d = v /\ 1 <= v.
Proof.
  intros Hd [[D ->]|[E Hv]].
  - split; [now apply defaulted_value|exact Hd].
  - rewrite E. cbn [number_or].
    destruct (Z.eqb_spec v 0); [lia|]. now split.
Qed.

(** ** The number of pages *)

Lemma Qceiling_quotient (total limit : Z) :
  1 <= limit ->
  Qceiling (inject_Z total / inject_Z limit) = - ((- total) / limit).
Proof.
  intro H. destruct limit as [|pl|pl]; try lia.
  unfold Qceiling, Qfloor, Qopp, Qdiv, Qmult, Qinv, inject_Z.
  cbn [Qnum Qden]. rewrite Z.mul_1_r, Pos.mul_1_l. reflexivity.
Qed.

Lemma ceiling_of_quotient (total limit : Z) :
  1 <= limit ->
  is_ceiling total limit (Qceiling (inject_Z total / inject_Z limit)).
Proof.
  intro H. rewrite (Qceiling_quotient total limit H). unfold is_ceiling.
  pose proof (Z.div_mod (- total) limit ltac:(lia)) as E.
  pose proof (Z.mod_pos_bound (- total) limit ltac:(lia)) as B.
  nia.
Qed.

(** ** getAllBooks *)

Lemma getAllBooks_page (RegExp_i : string -> option (string -> bool))
      (q : ListQuery) (w : World) (on_author on_genre : string -> bool) (p l : Z) :
  condition RegExp_i (q_author q) = Some on_author ->
  condition RegExp_i (q_genre q) = Some on_genre ->
  reads (q_page q) 1 p -> reads (q_limit q) 10 l ->
  getAllBooks RegExp_i q w
  = respond 200
      (Page (firstn (Z.to_nat l)
               (skipn (Z.to_nat ((p - 1) * l))
                  (sort_by newest_first
                     (filter (selects on_author on_genre) (books w)))))
            p
            (Qceiling (inject_Z (countDocuments (selects on_author on_genre) w)
                       / inject_Z l))
            (countDocuments (selects on_author on_genre) w)).
Proof.
  intros Ca Cg Rp Rl. unfold getAllBooks. rewrite Ca, Cg.
  destruct (reads_value _ 1 p ltac:(lia) Rp) as [-> Hp].
  destruct (reads_value _ 10 l ltac:(lia) Rl) as [-> Hl].
  unfold find_page.
  destruct (Z.ltb_spec ((p - 1) * l) 0) as [Neg|_]; [nia|].
  now rewrite (Z.abs_eq l) by lia.
Qed.

(** C10.  A [page] that is missing, non-numeric or zero is read as 1, and
    a [limit] that is missing, non-numeric or zero is read as 10: the
    listing answers 200 with [currentPage] 1 in the first case and with
    pages of 10 in the second, whatever the other parameter reads as. *)
Theorem getAllBooks_defaults (RegExp_i : string -> option (string -> bool))
        (q : ListQuery) (w : World) (on_author on_genre : string -> bool) :
  condition RegExp_i (q_author q) = Some on_author ->
  condition RegExp_i (q_genre q) = Some on_genre ->
  let sorted :=
    sort_by newest_first (filter (selects on_author on_genre) (books w)) in
  let total := countDocuments (selects on_author on_genre) w in
  (defaulted (q_page q) -> forall l, reads (q_limit q) 10 l ->
     getAllBooks RegExp_i q w
     = respond 200 (Page (firstn (Z.to_nat l) sorted) 1
                         (Qceiling (inject_Z total / inject_Z l)) total))
  /\ (defaulted (q_limit q) -> forall p, reads (q_page q) 1 p ->
      getAllBooks RegExp_i q w
      = respond 200 (Page (firstn 10 (skipn (Z.to_nat ((p - 1) * 10)) sorted)) p
                          (Qceiling (inject_Z total / 10)) total)).
Proof.
  intros Ca Cg sorted total. split.
  - intros D l Rl.
    rewrite (getAllBooks_page RegExp_i q w on_author on_genre 1 l Ca Cg
               (or_introl (conj D eq_refl)) Rl).
    reflexivity.
  - intros D p Rp.
    rewrite (getAllBooks_page RegExp_i q w on_author on_genre p 10 Ca Cg Rp
               (or_introl (conj D eq_refl))).
    reflexivity.
Qed.

Lemma condition_plain (RegExp_i : string -> option (string -> bool))
      (f : option string) :
  searches_plain_text RegExp_i -> plain f = true ->
  exists test, condition RegExp_i f = Some test
               /\ forall x, test x = wanted f x.
Proof.
  intros HR Hf. destruct f as [text|]; cbn [condition wanted plain] in *.
  - destruct (notEmpty text).
    + exact (HR text Hf).
    + now exists (fun _ => true).
  - now exists (fun _ => true).
Qed.

Lemma Forall_firstn {A : Type} (P : A -> Prop) (n : nat) (l : list A) :
  Forall P l -> Forall P (firstn n l).
Proof.
  revert l. induction n as [|n IH]; intros l H; cbn; [constructor|].
  destruct H; constructor; auto.
Qed.

Lemma Forall_skipn {A : Type} (P : A -> Prop) (n : nat) (l : list A) :
  Forall P l -> Forall P (skipn n l).
Proof.
  revert l. induction n as [|n IH]; intros l H; cbn; [exact H|].
  destruct H; [constructor|auto].
Qed.

Lemma Forall_filter_true {A : Type} (f : A -> bool) (l : list A) :
  Forall (fun x => f x = true) (filter f l).
Proof.
  apply Forall_forall. intros x Hx. now apply filter_In in Hx.
Qed.

Lemma plain_RegExp_searches : searches_plain_text plain_RegExp.
Proof.
  intros source H. unfold plain_RegExp. rewrite H. now exists (includes_ci source).
Qed.

Lemma asks_condition (RegExp_i : string -> option (string -> bool))
      (f : option string) (test : string -> bool) :
  asks RegExp_i f test ->
  exists t, condition RegExp_i f = Some t /\ forall x, t x = test x.
Proof.
  destruct f as [[|c s]|]; cbn [asks condition].
  - intro H. exists (fun _ => true). split; [reflexivity|]. intro x. now rewrite H.
  - intro H. exists test. split; [exact H|reflexivity].
  - intro H. exists (fun _ => true). split; [reflexivity|]. intro x. now rewrite H.
Qed.

Lemma plain_asks (RegExp_i : string -> option (string -> bool))
      (f : option string) :
  searches_plain_text RegExp_i -> plain f = true ->
  exists test, asks RegExp_i f test /\ forall x, test x = wanted f x.
Proof.
  intros HR Hf. destruct f as [[|c s]|]; cbn [asks wanted plain] in *.
  - now exists (fun _ => true).
  - exact (HR (String c s) Hf).
  - now exists (fun _ => true).
Qed.

Lemma getAllBooks_asked (RegExp_i : string -> option (string -> bool))
      (q : ListQuery) (w : World) (ta tg : string -> bool) (p l : Z) :
  asks RegExp_i (q_author q) ta -> asks RegExp_i (q_genre q) tg ->
  reads (q_page q) 1 p -> reads (q_limit q) 10 l ->
  getAllBooks RegExp_i q w
  = respond 200
      (Page (firstn (Z.to_nat l)
               (skipn (Z.to_nat ((p - 1) * l))
                  (sort_by newest_first
                     (filter (fun b => ta (author b) && tg (genre b)) (books w)))))
            p
            (Qceiling
               (inject_Z (Z.of_nat (length (filter (fun b => ta (author b) && tg (genre b))
                                                   (books w))))
                / inject_Z l))
            (Z.of_nat (length (filter (fun b => ta (author b) && tg (genre b))
                                      (books w))))).
Proof.
  intros Aa Ag Rp Rl.
  destruct (asks_condition RegExp_i _ ta Aa) as (ta' & Ca & Ha).
  destruct (asks_condition RegExp_i _ tg Ag) as (tg' & Cg & Hg).
  assert (E : filter (selects ta' tg') (books w)
              = filter (fun b => ta (author b) && tg (genre b)) (books w)).
  { apply filter_ext. intro b. unfold selects. now rewrite Ha, Hg. }
  pose proof (getAllBooks_page RegExp_i q w ta' tg' p l Ca Cg Rp Rl) as G.
  unfold countDocuments in G. rewrite E in G. exact G.
Qed.

Lemma not_an_expression_condition (RegExp_i : string -> option (string -> bool))
      (f : option string) :
  not_an_expression RegExp_i f -> condition RegExp_i f = None.
Proof.
  intros (c & s & -> & E). exact E.
Qed.

(** C7, as first worded, fails on a filter that is more than plain text.
    On the one book of Frank Herbert the listing under the author filter
    of one dot answers that book, though no dot is in "Frank Herbert": so
    with the sample engine, and so with every engine whose expression of
    one dot accepts that name.  Under the author filter of one opening
    parenthesis, which no engine compiles, the listing answers 500. *)
Lemma getAllBooks_filter_is_an_expression :
  exists b,
    books one_book = [b] /\ author b = "Frank Herbert"
    /\ matching (mkListQuery None None (Some ".") None) b = false
    /\ getAllBooks dot_RegExp (mkListQuery None None (Some ".") None) one_book
       = respond 200 (Page [b] 1 1 1)
    /\ (forall (RegExp_i : string -> option (string -> bool)) test,
          RegExp_i "." = Some test -> test "Frank Herbert" = true ->
          getAllBooks RegExp_i (mkListQuery None None (Some ".") None) one_book
          = respond 200 (Page [b] 1 1 1))
    /\ (forall RegExp_i : string -> option (string -> bool),
          RegExp_i "(" = None ->
          getAllBooks RegExp_i (mkListQuery None None (Some "(") None) one_book
          = respond 500 (ErrorMessage "Error fetching books")).
Proof.
  eexists. split; [vm_compute; reflexivity|].
  split; [reflexivity|]. split; [reflexivity|]. split; [vm_compute; reflexivity|].
  split.
  - intros RegExp_i test C T.
    rewrite (getAllBooks_asked RegExp_i (mkListQuery None None (Some ".") None)
               one_book test (fun _ => true) 1 10 C (fun _ => eq_refl)
               (or_introl (conj I eq_refl)) (or_introl (conj I eq_refl))).
    change (books one_book) with (books (fst (createBook 0 dune init_world))).
    vm_compute books. cbn [filter author genre]. rewrite T. vm_compute.
    reflexivity.
  - intros RegExp_i C. unfold getAllBooks. cbn [q_author condition].
    change (notEmpty "(") with true. cbn iota. now rewrite C.
Qed.

(** C7.  The listing compiles each filter that is there as an expression
    without regard to case, and keeps the books whose author, and whose
    genre, the expression accepts.  Under a filter that does not compile
    it answers 500.  Otherwise, for a page (1 by default) and a limit (10
    by default) that a Number holds exactly, it answers 200 with the page
    number, the count of the kept books, the ceiling of that count over the
    limit, and the books of the page: the kept books, newest first, after
    (page - 1) * limit of them, at most limit.  With an engine that searches
    plain text, under filters without metacharacters the kept books are
    those whose author and genre contain the filters without regard to
    case.  On 15 books, page 2 of 10 has 5 books, of 2 pages and 15 books. *)
Theorem getAllBooks_contract (RegExp_i : string -> option (string -> bool))
        (q : ListQuery) (w : World) :
  (not_an_expression RegExp_i (q_author q)
   \/ not_an_expression RegExp_i (q_genre q) ->
   getAllBooks RegExp_i q w
   = respond 500 (ErrorMessage "Error fetching books"))
  /\ (forall (ta tg : string -> bool) (p l : Z),
        asks RegExp_i (q_author q) ta -> asks RegExp_i (q_genre q) tg ->
        reads (q_page q) 1 p -> reads (q_limit q) 10 l ->
        exact p -> exact l -> exact ((p - 1) * l) ->
        exists found pages all,
          getAllBooks RegExp_i q w
          = respond 200 (Page found p pages (Z.of_nat (length all)))
          /\ Permutation all
               (filter (fun b => ta (author b) && tg (genre b)) (books w))
          /\ StronglySorted not_older all
          /\ found = firstn (Z.to_nat l) (skipn (Z.to_nat ((p - 1) * l)) all)
          /\ is_ceiling (Z.of_nat (length all)) l pages)
  /\ (forall p l : Z,
        searches_plain_text RegExp_i ->
        plain (q_author q) = true -> plain (q_genre q) = true ->
        reads (q_page q) 1 p -> reads (q_limit q) 10 l ->
        exact p -> exact l -> exact ((p - 1) * l) ->
        exists found pages all,
          getAllBooks RegExp_i q w
          = respond 200
              (Page found p pages (Z.of_nat (length (filter (matching q) (books w)))))
          /\ Permutation all (filter (matching q) (books w))
          /\ StronglySorted not_older all
          /\ found = firstn (Z.to_nat l) (skipn (Z.to_nat ((p - 1) * l)) all)
          /\ StronglySorted not_older found
          /\ Forall (fun b => matching q b = true) found
          /\ is_ceiling (Z.of_nat (length (filter (matching q) (books w)))) l pages)
  /\ (q = mkListQuery (Some "2") (Some "10") None None ->
      length (books w) = 15%nat ->
      exists found,
        getAllBooks RegExp_i q w = respond 200 (Page found 2 2 15)
        /\ length found = 5%nat).
Proof.
  split; [|split; [|split]].
  - intros [Bad|Bad]; apply not_an_expression_condition in Bad;
      unfold getAllBooks; rewrite Bad; [reflexivity|].
    now destruct (condition RegExp_i (q_author q)).
  - intros ta tg p l Aa Ag Rp Rl _ _ _.
    pose proof (getAllBooks_asked RegExp_i q w ta tg p l Aa Ag Rp Rl) as G.
    destruct (reads_value _ 10 l ltac:(lia) Rl) as [_ Hl].
    set (kept := filter (fun b => ta (author b) && tg (genre b)) (books w)) in *.
    assert (L : length (sort_by newest_first kept) = length kept).
    { symmetry. apply Permutation_length, sort_by_perm. }
    eexists _, _, (sort_by newest_first kept). rewrite L.
    split; [exact G|].
    split; [symmetry; apply sort_by_perm|].
    split; [apply newest_first_sorted|]. split; [reflexivity|].
    now apply ceiling_of_quotient.
  - intros p l HR Pa Pg Rp Rl _ _ _.
    destruct (plain_asks RegExp_i (q_author q) HR Pa) as (ta & Aa & Ha).
    destruct (plain_asks RegExp_i (q_genre q) HR Pg) as (tg & Ag & Hg).
    assert (E : filter (fun b => ta (author b) && tg (genre b)) (books w)
                = filter (matching q) (books w)).
    { apply filter_ext. intro b. unfold matching. now rewrite Ha, Hg. }
    pose proof (getAllBooks_asked RegExp_i q w ta tg p l Aa Ag Rp Rl) as G.
    rewrite E in G.
    destruct (reads_value _ 10 l ltac:(lia) Rl) as [_ Hl].
    pose proof (newest_first_sorted (filter (matching q) (books w))) as S.
    eexists _, _, (sort_by newest_first (filter (matching q) (books w))).
    split; [exact G|].
    split; [symmetry; apply sort_by_perm|].
    split; [exact S|]. split; [reflexivity|].
    split; [now apply StronglySorted_firstn, StronglySorted_skipn|].
    split; [|now apply ceiling_of_quotient].
    apply Forall_firstn, Forall_skipn.
    eapply Permutation_Forall; [apply sort_by_perm|].
    apply Forall_filter_true.
  - intros -> L.
    assert (Rp : reads (Some "2") 1 2) by (right; split; [reflexivity|lia]).
    assert (Rl : reads (Some "10") 10 10) by (right; split; [reflexivity|lia]).
    pose proof (getAllBooks_page RegExp_i
                  (mkListQuery (Some "2") (Some "10") None None) w
                  (fun _ => true) (fun _ => true) 2 10 eq_refl eq_refl Rp Rl) as G.
    assert (E : filter (selects (fun _ => true) (fun _ => true)) (books w) = books w).
    { clear. induction (books w) as [|b bs IH]; cbn; [reflexivity|]. now rewrite IH. }
    unfold countDocuments in G. rewrite E, L in G.
    eexists. split; [exact G|].
    rewrite length_firstn, length_skipn.
    rewrite <- (Permutation_length (sort_by_perm newest_first (books w))), L.
    reflexivity.
Qed.

Lemma getAllBooks_contract_witness :
  length (books fifteen_books) = 15%nat
  /\ exists found,
       getAllBooks plain_RegExp (mkListQuery (Some "2") (Some "10") None None)
                   fifteen_books
       = respond 200 (Page found 2 2 15)
       /\ length found = 5%nat.
Proof.
  split; [reflexivity|].
  destruct (getAllBooks_contract plain_RegExp
              (mkListQuery (Some "2") (Some "10") None None) fifteen_books)
    as (_ & _ & _ & Scenario).
  exact (Scenario eq_refl eq_refl).
Defined.

Lemma getAllBooks_defaults_witness :
  condition plain_RegExp (Some "herbert") = Some (includes_ci "herbert")
  /\ condition plain_RegExp None = Some (fun _ => true)
  /\ defaulted (Some "abc") /\ defaulted (Some "0")
  /\ exists found pages,
       getAllBooks plain_RegExp (mkListQuery (Some "abc") (Some "0") (Some "herbert") None)
                   fifteen_books
       = respond 200 (Page found 1 pages 15)
       /\ length found = 10%nat.
Proof.
  split; [reflexivity|]. split; [reflexivity|].
  split; [left; reflexivity|]. split; [right; reflexivity|].
  destruct (getAllBooks_defaults plain_RegExp
              (mkListQuery (Some "abc") (Some "0") (Some "herbert") None)
              fifteen_books (includes_ci "herbert") (fun _ => true)
              eq_refl eq_refl) as [Page1 _].
  eexists _, _. split.
  - rewrite (Page1 (or_introl eq_refl) 10
                   (or_introl (conj (or_intror eq_refl) eq_refl))).
    reflexivity.
  - reflexivity.
Defined.

(** ** Partial match *)

Lemma prefix_spec (n s : string) :
  String.prefix n s = true <-> exists post, s = (n ++ post)%string.
Proof.
  revert s. induction n as [|a n IH]; intros [|b s]; cbn.
  - split; [intros _; now exists EmptyString|reflexivity].
  - split; [intros _; now exists (String b s)|reflexivity].
  - split; [discriminate|]. intros [post E]. discriminate.
  - destruct (Ascii.ascii_dec a b) as [->|NE].
    + rewrite IH. split; intros [post E]; exists post; [now rewrite E|].
      now injection E.
    + split; [discriminate|]. intros [post E]. injection E as E1 _.
      congruence.
Qed.

Lemma includes_spec (n s : string) :
  includes n s = true <-> exists pre post, s = (pre ++ n ++ post)%string.
Proof.
  induction s as [|c s IH]; cbn [includes]; rewrite orb_true_iff, prefix_spec.
  - split.
    + intros [[post E]|H]; [|discriminate]. now exists EmptyString, post.
    + intros (pre & post & E). left.
      destruct pre; [now exists post|discriminate].
  - rewrite IH. split.
    + intros [[post E]|(pre & post & E)].
      * now exists EmptyString, post.
      * exists (String c pre), post. cbn. now rewrite E.
    + intros (pre & post & E). destruct pre as [|a pre]; cbn in E.
      * left. now exists post.
      * right. injection E as _ E. now exists pre, post.
Qed.

(** ** searchBooks *)

Lemma Qle_bool_total (x y : Q) : Qle_bool x y = true \/ Qle_bool y x = true.
Proof.
  rewrite !Qle_bool_iff.
  destruct (Qlt_le_dec x y) as [H|H]; [left; now apply Qlt_le_weak|now right].
Qed.

Lemma most_relevant_sorted (textScore : string -> string -> string -> option Q)
      (q : string) (l : list Book) :
  StronglySorted (as_relevant textScore q)
                 (sort_by (most_relevant_first textScore q) l).
Proof.
  apply (StronglySorted_impl
           (fun x y => most_relevant_first textScore q x y = true)).
  - intros x y. unfold most_relevant_first, as_relevant. apply Qle_bool_iff.
  - apply (sort_by_sorted (most_relevant_first textScore q)).
    + intros x y. apply Qle_bool_total.
    + intros x y z. unfold most_relevant_first. rewrite !Qle_bool_iff.
      intros H1 H2. now apply Qle_trans with (relevance textScore q y).
Qed.

Lemma hits_and_misses {A : Type} (f : A -> bool) (l : list A) :
  Permutation (filter f l ++ filter (fun x => negb (f x)) l) l.
Proof.
  induction l as [|x l IH]; cbn [filter app]; [constructor|].
  destruct (f x); cbn [negb app].
  - now constructor.
  - apply Permutation_sym, Permutation_cons_app. now apply Permutation_sym.
Qed.

Lemma StronglySorted_among {A : Type} (P : A -> Prop) (R R' : A -> A -> Prop)
      (l : list A) :
  (forall x y, P x -> P y -> R x y -> R' x y) ->
  Forall P l -> StronglySorted R l -> StronglySorted R' l.
Proof.
  intros Among F S. induction S as [|x l S IH Hx]; [constructor|].
  inversion F as [|? ? Px Fl]; subst. constructor; [now apply IH|].
  rewrite Forall_forall in *. intros y Hy. apply Among; auto.
Qed.

Lemma StronglySorted_across {A : Type} (R : A -> A -> Prop) (front back : list A) :
  StronglySorted R (front ++ back) ->
  forall x y, In x front -> In y back -> R x y.
Proof.
  induction front as [|a front IH]; cbn [app]; intros S x y Hx Hy; [contradiction|].
  inversion S as [|? ? S' Ha]; subst. destruct Hx as [->|Hx].
  - rewrite Forall_forall in Ha. apply Ha, in_or_app. now right.
  - now apply IH.
Qed.

Lemma text_matches_hit (textScore : string -> string -> string -> option Q)
      (q : string) (b : Book) :
  text_matches textScore q b = true <-> hit textScore q b.
Proof.
  unfold text_matches, score, hit.
  destruct (textScore q (title b) (author b)) as [s|].
  - split; [now exists s|reflexivity].
  - split; [discriminate|]. intros [s E]. discriminate.
Qed.

(** C8.  searchBooks answers 400 exactly when the query is missing or
    empty.  Otherwise it answers 200 with at most ten books.  The books of
    the collection divide into the answered ones, the other ones that the
    text search on title and author finds, and the ones it does not find:
    every answered book is found, the answered books are in the order of
    their scores, the highest first, each of them scores at least as high
    as each found book left out, and a found book is left out only of an
    answer of ten. *)
Theorem searchBooks_contract (textScore : string -> string -> string -> option Q)
        (query : option string) (w : World) :
  (status (searchBooks textScore query w) = 400%nat
   <-> (query = None \/ query = Some ""))
  /\ (forall q, query = Some q -> q <> "" ->
        exists found rest misses,
          searchBooks textScore query w = respond 200 (BookList found)
          /\ (length found <= 10)%nat
          /\ Permutation (found ++ rest ++ misses) (books w)
          /\ Forall (hit textScore q) found
          /\ Forall (hit textScore q) rest
          /\ Forall (fun b => ~ hit textScore q b) misses
          /\ StronglySorted (outranks textScore q) found
          /\ (forall x y, In x found -> In y rest -> outranks textScore q x y)
          /\ (rest <> [] -> length found = 10%nat)).
Proof.
  assert (NE : forall q, notEmpty q = false <-> q = "").
  { intro q. unfold notEmpty. rewrite negb_false_iff. apply String.eqb_eq. }
  split.
  - unfold searchBooks. destruct query as [q|].
    + destruct (notEmpty q) eqn:E; cbn [negb status].
      * split; [discriminate|]. intros [H|H]; [discriminate|].
        injection H as ->. discriminate.
      * split; [|reflexivity]. intros _. right. f_equal. now apply NE.
    + split; [now left|reflexivity].
  - intros q -> Hq. unfold searchBooks.
    destruct (notEmpty q) eqn:E; [|now apply NE in E]. cbn [negb].
    set (hits := filter (text_matches textScore q) (books w)).
    set (ranked := sort_by (most_relevant_first textScore q) hits).
    assert (Found : Forall (hit textScore q) ranked).
    { eapply Permutation_Forall; [apply sort_by_perm|].
      apply Forall_forall. intros b Hb. apply filter_In in Hb.
      now apply text_matches_hit. }
    assert (Ranked : StronglySorted (outranks textScore q) ranked).
    { apply (StronglySorted_among (hit textScore q) (as_relevant textScore q));
        [|exact Found|apply most_relevant_sorted].
      intros x y [sx Ex] [sy Ey]. unfold as_relevant, relevance, score.
      rewrite Ex, Ey. intro Le. now exists sx, sy. }
    exists (firstn 10 ranked), (skipn 10 ranked),
           (filter (fun b => negb (text_matches textScore q b)) (books w)).
    split; [reflexivity|]. split; [apply firstn_le_length|].
    split.
    { rewrite app_assoc, firstn_skipn.
      apply Permutation_trans with (hits ++ filter (fun b => negb (text_matches textScore q b)) (books w)).
      - apply Permutation_app_tail, Permutation_sym, sort_by_perm.
      - apply hits_and_misses. }
    split; [now apply Forall_firstn|]. split; [now apply Forall_skipn|].
    split.
    { apply Forall_forall. intros b Hb. apply filter_In in Hb. destruct Hb as [_ Hb].
      rewrite <- text_matches_hit. now destruct (text_matches textScore q b). }
    split; [now apply StronglySorted_firstn|].
    split.
    { apply StronglySorted_across. now rewrite firstn_skipn. }
    intro More. rewrite length_firstn. apply Nat.min_l.
    destruct (Nat.le_gt_cases 10 (length ranked)) as [Le|Gt]; [exact Le|].
    exfalso. apply More. apply skipn_all2. lia.
Qed.

(** ** The review routes *)

Lemma updateReview_without_id (req : ReviewRequest) (w : World) :
  param_id (req_params req) = None ->
  fst (updateReview req w) = w /\ status (snd (updateReview req w)) = 400%nat.
Proof.
  intro P. unfold updateReview. rewrite P.
  destruct (validateReview (req_body req)) as [[z c]|]; now split.
Qed.

Lemma deleteReview_without_reviewId (u : ObjectId) (params : Params) (w : World) :
  param_reviewId params = None ->
  fst (deleteReview u params w) = w
  /\ status (snd (deleteReview u params w)) <> 200%nat.
Proof.
  intro P. unfold deleteReview. rewrite P. cbn [reviews_id].
  destruct (param_id params) as [[|i]|]; try (split; [reflexivity|discriminate]).
  destruct (findById w i); split; (reflexivity || discriminate).
Qed.

Ltac route_cases :=
  repeat match goal with
         | |- context [if ?c then _ else _] => destruct c; cbn
         end;
  try discriminate;
  try (let E := fresh in intro E; now injection E).

(** What the router hands to the two handlers, whatever the request. *)
Lemma review_routes_bindings (m : Method) (path : list string)
      (id reviewId : option string) :
  (routed m path = Some (H_updateReview, id, reviewId) -> id = None)
  /\ (routed m path = Some (H_deleteReview, id, reviewId) -> reviewId = None).
Proof.
  unfold routed.
  destruct m; cbn [dispatch book_routes Method_eqb route_method route_path];
    destruct path as [|x [|y [|z path]]]; cbn [match_path]; split; route_cases.
Qed.

(** Behind the router, updateReview stops at its check of the book id and
    deleteReview never finds its review. *)
Lemma routed_updateReview_rejects (castObjectId : string -> option ObjectId)
      (m : Method) (path : list string) (id reviewId : option string)
      (u : ObjectId) (body : ReviewBody) (w : World) :
  routed m path = Some (H_updateReview, id, reviewId) ->
  fst (updateReview (mkReviewRequest u (params_of castObjectId id reviewId) body) w) = w
  /\ status (snd (updateReview
                    (mkReviewRequest u (params_of castObjectId id reviewId) body) w))
     = 400%nat.
Proof.
  intro H. apply updateReview_without_id. cbn.
  now rewrite (proj1 (review_routes_bindings m path id reviewId) H).
Qed.

Lemma routed_deleteReview_never_deletes (castObjectId : string -> option ObjectId)
      (m : Method) (path : list string) (id reviewId : option string)
      (u : ObjectId) (w : World) :
  routed m path = Some (H_deleteReview, id, reviewId) ->
  fst (deleteReview u (params_of castObjectId id reviewId) w) = w
  /\ status (snd (deleteReview u (params_of castObjectId id reviewId) w)) <> 200%nat.
Proof.
  intro H. apply deleteReview_without_reviewId. cbn.
  now rewrite (proj2 (review_routes_bindings m path id reviewId) H).
Qed.

(** C9.  No route of the router matches [PUT /books/:id/reviews/:reviewId]
    or [DELETE /books/:id/reviews/:reviewId]: updateReview is bound to the
    fixed path [/books/reviews/bookId], with no parameter, and
    deleteReview to [/books/:id], without a review id. *)
Theorem review_routes_unbound (b r : string) :
  routed PUT [b; "reviews"; r] = None
  /\ routed DELETE [b; "reviews"; r] = None
  /\ routed PUT ["reviews"; "bookId"] = Some (H_updateReview, None, None)
  /\ routed DELETE ["5f1d7f3e9b1e8a0012345678"]
     = Some (H_deleteReview, Some "5f1d7f3e9b1e8a0012345678", None).
Proof.
  split; [|split; [|split]]; try reflexivity.
  - unfold routed. cbn [dispatch book_routes Method_eqb route_method route_path match_path].
    destruct (lower "reviews" =? lower b)%string; reflexivity.
  - unfold routed. cbn [dispatch book_routes Method_eqb route_method route_path match_path].
    destruct (notEmpty b); reflexivity.
Qed.

(** ** The model on small inputs *)

Lemma wanted_spec (text field : string) :
  wanted (Some text) field = true <->
  text = "" \/ exists pre post, lower field = (pre ++ lower text ++ post)%string.
Proof.
  cbn [wanted]. unfold notEmpty, includes_ci.
  destruct (String.eqb_spec text "") as [->|NE]; cbn [negb].
  - split; [now left|reflexivity].
  - rewrite includes_spec. split; [now right|]. intros [E|H]; [contradiction|exact H].
Qed.

Example parseInt_samples :
  parseInt (Some "12") = Some 12
  /\ parseInt (Some "  -7px") = Some (-7)
  /\ parseInt (Some "0x1A") = Some 26
  /\ parseInt (Some "1e3") = Some 1
  /\ parseInt (Some "abc") = None
  /\ parseInt (Some "") = None
  /\ parseInt None = None
  /\ number_or (parseInt (Some "-0")) 10 = 10.
Proof. vm_compute. repeat split. Qed.

Example trim_samples :
  trim "  Great book!  " = "Great book!" /\ sanitized None = "" /\ trim "   " = "".
Proof. vm_compute. repeat split. Qed.

Example routed_samples :
  routed GET ["search"] = Some (H_searchBooks, None, None)
  /\ routed GET ["5f1d7f3e9b1e8a0012345678"]
     = Some (H_getBookById, Some "5f1d7f3e9b1e8a0012345678", None)
  /\ routed POST ["5f1d7f3e9b1e8a0012345678"; "reviews"]
     = Some (H_addReview, Some "5f1d7f3e9b1e8a0012345678", None)
  /\ routed POST [] = Some (H_createBook, None, None).
Proof. vm_compute. repeat split. Qed.

Example searchBooks_samples :
  searchBooks title_is (Some "Dune") fifteen_books
  = respond 200 (BookList (firstn 10 (books fifteen_books)))
  /\ searchBooks title_is (Some "Emma") fifteen_books = respond 200 (BookList [])
  /\ searchBooks title_is (Some "") fifteen_books
     = respond 400 (Message "Search query is required").
Proof. vm_compute. repeat split. Qed.

Example addReview_samples :
  snd (addReview (review_by 7 0 3 "again") two_reviews)
  = respond 400 (Message "You have already reviewed this book")
  /\ snd (addReview (review_by 9 0 6 "too much") two_reviews)
     = respond 400 ValidationErrors
  /\ snd (addReview (review_by 9 4 3 "no such book") two_reviews)
     = respond 404 (Message "Book not found")
  /\ snd (deleteReview 7 (at_review 0 2) two_reviews)
     = respond 403 (Message "Not authorized to delete this review").
Proof. vm_compute. repeat split. Qed.

(** * Further properties *)

(** ** Stored documents stay within the schema *)

Lemma notEmpty_true (s : string) : notEmpty s = true -> s <> "".
Proof.
  unfold notEmpty. intros H E. subst s. discriminate.
Qed.

Lemma valid_review_within (r : Review) :
  valid_review r = true -> review_within_schema r.
Proof.
  unfold valid_review, review_within_schema. rewrite !andb_true_iff.
  intros [[H1 H2] H3]. apply Z.leb_le in H1, H2.
  split; [lia|now apply notEmpty_true].
Qed.

Lemma sum_ratings_bounds (rs : list Review) :
  Forall review_within_schema rs ->
  Z.of_nat (length rs) <= sum_ratings rs <= 5 * Z.of_nat (length rs).
Proof.
  induction 1 as [|r rs [Hr _] _ IH]; cbn [sum_ratings length]; lia.
Qed.

Lemma Zpos_of_nat (n : nat) : n <> 0%nat -> Z.pos (Pos.of_nat n) = Z.of_nat n.
Proof.
  intro H. rewrite <- positive_nat_Z. now rewrite Nat2Pos.id.
Qed.

Lemma quotient_spec_bounds (rs : list Review) :
  rs <> [] -> Forall review_within_schema rs ->
  (1 <= quotient_spec rs <= 5)%Q.
Proof.
  intros NE H. pose proof (sum_ratings_bounds rs H) as B.
  unfold quotient_spec, Qle. cbn [Qnum Qden].
  rewrite Zpos_of_nat by (destruct rs; [congruence|discriminate]).
  lia.
Qed.

Lemma ok_within_schema (n : ObjectId) (b : Book) : book_ok n b -> within_schema b.
Proof.
  intros Ok. pose proof (ok_consistent n b Ok) as C.
  destruct Ok as [V _ _ _].
  apply validate_loaded_iff in V. destruct V as [T VR].
  rewrite !andb_true_iff in T. destruct T as [[[T1 T2] T3] T4].
  assert (W : Forall review_within_schema (reviews b)).
  { apply Forall_forall. intros r Hr. apply valid_review_within.
    rewrite forallb_forall in VR. now apply VR. }
  repeat (split; [now apply notEmpty_true|]).
  split; [exact W|].
  unfold consistent in C. destruct (reviews b) as [|r rs] eqn:E.
  - destruct C as [-> _]. split; [split; discriminate|congruence].
  - destruct C as [A _].
    destruct (quotient_spec_bounds (r :: rs) ltac:(discriminate) W) as [L U].
    rewrite A. split; [split|]; auto.
    apply Qle_trans with 1%Q; [discriminate|exact L].
Qed.

(** X1.  After any sequence of requests every stored book is within its
    schema: the four texts and the comments are not empty, every rating is
    between 1 and 5, and the average, which save writes without validating
    it again, is between 0 and 5, and at least 1 when there are reviews. *)
Theorem stored_books_within_schema (rs : list Request) :
  Forall within_schema (books (run rs init_world)).
Proof.
  destruct (run_ok rs init_world init_ok) as [Hb _].
  eapply Forall_impl; [|exact Hb].
  intros b. apply ok_within_schema.
Qed.

(** ** The average as a function of the reviews *)

Lemma sum_ratings_perm (rs rs' : list Review) :
  Permutation rs rs' -> sum_ratings rs = sum_ratings rs'.
Proof.
  induction 1; cbn [sum_ratings]; lia.
Qed.

(** X2.  On reviews whose ratings are integers, [updateRating] does not
    depend on the order of the reviews: two collections with the same
    reviews in another order get the same average and the same count. *)
Theorem updateRating_order_independent (b : Book) (rs rs' : list Review) :
  Permutation rs rs' ->
  averageRating (updateRating (set_reviews b rs))
  = averageRating (updateRating (set_reviews b rs'))
  /\ totalReviews (updateRating (set_reviews b rs))
     = totalReviews (updateRating (set_reviews b rs')).
Proof.
  intro P. unfold updateRating. cbn [reviews set_reviews].
  rewrite !totalRating_sum, (sum_ratings_perm rs rs' P), (Permutation_length P).
  now destruct (length rs' =? 0)%nat.
Qed.

Lemma updateRating_order_independent_witness :
  Permutation [mkReview 1 7 5 "superb"; mkReview 2 8 2 "dull"]
              [mkReview 2 8 2 "dull"; mkReview 1 7 5 "superb"]
  /\ averageRating
       (updateRating (set_reviews (rated [])
                        [mkReview 1 7 5 "superb"; mkReview 2 8 2 "dull"]))
     = averageRating
         (updateRating (set_reviews (rated [])
                          [mkReview 2 8 2 "dull"; mkReview 1 7 5 "superb"])).
Proof.
  split; [apply perm_swap|].
  apply (updateRating_order_independent (rated []) _ _ (perm_swap _ _ [])).
Defined.

(** ** What a write does to the collection *)

(** X3.  A write that is answered neither 200 nor 201 leaves the
    collection as it was: nothing is stored on a validation error, a
    missing book or review, a refusal, or a failure of save. *)
Theorem failed_write_stores_nothing (w : World) (r : Request) :
  status (snd (handle w r)) = 200%nat
  \/ status (snd (handle w r)) = 201%nat
  \/ books (fst (handle w r)) = books w.
Proof.
  destruct r as [now body|req|req|u params]; cbn [handle].
  - unfold createBook.
    destruct (validateBook body); cbn [negb]; [|now right; right].
    destruct (save true _ _) as [[w2 saved]|]; [now right; left|now right; right].
  - unfold addReview.
    destruct (validateReview (req_body req)) as [[z c]|]; [|now right; right].
    destruct (param_id (req_params req)) as [[|i]|]; try (now right; right).
    destruct (findById w i) as [book|]; [|now right; right].
    destruct (review_of (req_user req) (reviews book)); [now right; right|].
    destruct (save false _ _) as [[w2 saved]|]; [now right; left|now right; right].
  - unfold updateReview.
    destruct (validateReview (req_body req)) as [[z c]|]; [|now right; right].
    destruct (param_id (req_params req)) as [[|i]|]; try (now right; right).
    destruct (findById w i) as [book|]; [|now right; right].
    destruct (review_of (req_user req) (reviews book));
      destruct (save false _ _) as [[w2 saved]|]; (now left) || (now right; right).
  - unfold deleteReview.
    destruct (param_id params) as [[|i]|]; try (now right; right).
    destruct (findById w i) as [book|]; [|now right; right].
    destruct (reviews_id (param_reviewId params) (reviews book)) as [review|];
      [|now right; right].
    destruct (negb (user review =? u)%N); [now right; right|].
    destruct (save false _ _) as [[w2 saved]|]; [now left|now right; right].
Qed.

Lemma saved_loaded_ids (b : Book) (w w2 : World) (saved : Book) :
  save false b w = Some (w2, saved) ->
  map book_id (books w2) = map book_id (books w).
Proof.
  intro S. apply save_inv in S. destruct S as (_ & -> & ->).
  cbn [updateOne books]. apply replaced_ids.
Qed.

(** X4.  No write removes a book or changes the order of the collection:
    the ids after a request are the ids before it, followed by the id of
    the new book (the [_id] of the body, or else a drawn one) when the
    request is a createBook answered 201. *)
Theorem books_never_removed (w : World) (r : Request) :
  map book_id (books (fst (handle w r)))
  = map book_id (books w)
    ++ match r with
       | CreateBook _ body =>
           if (status (snd (handle w r)) =? 201)%nat
           then [id_or (body_id body) (above (sent_ids body) (next_oid w))]
           else []
       | _ => []
       end.
Proof.
  destruct r as [now body|req|req|u params]; cbn [handle].
  - unfold createBook.
    destruct (validateBook body); cbn [negb fst snd status Nat.eqb];
      [|now rewrite app_nil_r].
    destruct (save true _ _) as [[w2 saved]|] eqn:S; cbn [fst snd status].
    + apply save_inv in S. destruct S as (_ & -> & ->).
      cbn [insertOne books drawn]. rewrite map_app. cbn [map].
      now rewrite updateRating_book_id.
    + cbn. now rewrite app_nil_r.
  - rewrite app_nil_r. unfold addReview.
    destruct (validateReview (req_body req)) as [[z c]|]; [|reflexivity].
    destruct (param_id (req_params req)) as [[|i]|]; try reflexivity.
    destruct (findById w i) as [book|]; [|reflexivity].
    destruct (review_of (req_user req) (reviews book)); [reflexivity|].
    destruct (save false _ _) as [[w2 saved]|] eqn:S; [|reflexivity].
    exact (saved_loaded_ids _ _ _ _ S).
  - rewrite app_nil_r. unfold updateReview.
    destruct (validateReview (req_body req)) as [[z c]|]; [|reflexivity].
    destruct (param_id (req_params req)) as [[|i]|]; try reflexivity.
    destruct (findById w i) as [book|]; [|reflexivity].
    destruct (review_of (req_user req) (reviews book));
      destruct (save false _ _) as [[w2 saved]|] eqn:S; try reflexivity;
      exact (saved_loaded_ids _ _ _ _ S).
  - rewrite app_nil_r. unfold deleteReview.
    destruct (param_id params) as [[|i]|]; try reflexivity.
    destruct (findById w i) as [book|]; [|reflexivity].
    destruct (reviews_id (param_reviewId params) (reviews book)) as [review|];
      [|reflexivity].
    destruct (negb (user review =? u)%N); [reflexivity|].
    destruct (save false _ _) as [[w2 saved]|] eqn:S; [|reflexivity].
    exact (saved_loaded_ids _ _ _ _ S).
Qed.

(** ** The answer of a write and the collection *)

Lemma findById_inserted (w : World) (b : Book) :
  (forall d, In d (books w) -> book_id d <> book_id b) ->
  findById (insertOne b w) (book_id b) = Some b.
Proof.
  intro Fresh. unfold findById, insertOne. cbn [books].
  induction (books w) as [|d l IH]; cbn.
  - now rewrite N.eqb_refl.
  - destruct (N.eqb_spec (book_id d) (book_id b)) as [E|_].
    + now destruct (Fresh d (or_introl eq_refl)).
    + apply IH. intros d' Hd'. apply Fresh. now right.
Qed.

Lemma saved_loaded_found (b old : Book) (w w2 : World) (saved : Book) :
  findById w (book_id b) = Some old ->
  save false b w = Some (w2, saved) ->
  findById w2 (book_id saved) = Some saved.
Proof.
  intros F S. apply save_inv in S. destruct S as (_ & -> & ->).
  apply (findById_updateOne_found w _ old); [|reflexivity].
  now rewrite updateRating_book_id.
Qed.

Lemma stored_after_write (w : World) (r : Request) (b : Book) :
  world_ok w ->
  document_of (snd (handle w r)) = Some b ->
  findById (fst (handle w r)) (book_id b) = Some b.
Proof.
  intros Ok. unfold document_of.
  destruct r as [now body|req|req|u params]; cbn [handle].
  - unfold createBook.
    destruct (validateBook body); cbn [negb]; [|discriminate].
    destruct (save true _ _) as [[w2 saved]|] eqn:S; [|discriminate].
    cbn [fst snd payload]. intro E. injection E as <-.
    pose proof (save_new_unused _ _ _ _ S) as Unused.
    apply save_inv in S. destruct S as (_ & -> & ->).
    apply findById_inserted. exact Unused.
  - unfold addReview.
    destruct (validateReview (req_body req)) as [[z c]|]; [|discriminate].
    destruct (param_id (req_params req)) as [[|i]|]; try discriminate.
    destruct (findById w i) as [book|] eqn:F; [|discriminate].
    destruct (review_of (req_user req) (reviews book)); [discriminate|].
    destruct (save false _ _) as [[w2 saved]|] eqn:S; [|discriminate].
    cbn [fst snd payload]. intro E. injection E as <-.
    apply findById_In in F as F'. destruct F' as [_ Eid]. subst i.
    eapply saved_loaded_found; [|exact S]; exact F.
  - unfold updateReview.
    destruct (validateReview (req_body req)) as [[z c]|]; [|discriminate].
    destruct (param_id (req_params req)) as [[|i]|]; try discriminate.
    destruct (findById w i) as [book|] eqn:F; [|discriminate].
    apply findById_In in F as F'. destruct F' as [_ Eid]. subst i.
    destruct (review_of (req_user req) (reviews book));
      destruct (save false _ _) as [[w2 saved]|] eqn:S; try discriminate;
      cbn [fst snd payload]; intro E; injection E as <-.
    + eapply saved_loaded_found; [|exact S]; exact F.
    + eapply saved_loaded_found; [|exact S]; exact F.
  - unfold deleteReview.
    destruct (param_id params) as [[|i]|]; try discriminate.
    destruct (findById w i) as [book|] eqn:F; [|discriminate].
    apply findById_In in F as F'. destruct F' as [_ Eid]. subst i.
    destruct (reviews_id (param_reviewId params) (reviews book)) as [review|];
      [|discriminate].
    destruct (negb (user review =? u)%N); [discriminate|].
    destruct (save false _ _) as [[w2 saved]|] eqn:S; [|discriminate].
    cbn [fst snd payload]. intro E. injection E as <-.
    eapply saved_loaded_found; [|exact S]; exact F.
Qed.

(** X5.  On a reachable world, the document a write answers with is the
    stored one: getBookById with its id, on the world the write leaves,
    answers 200 with that very document. *)
Theorem written_document_is_read_back (w : World) (r : Request) (b : Book) :
  reachable w ->
  document_of (snd (handle w r)) = Some b ->
  getBookById (at_book (book_id b)) (fst (handle w r)) = respond 200 (BookDoc b).
Proof.
  intros R D. unfold getBookById, at_book. cbn [param_id].
  now rewrite (stored_after_write w r b (reachable_ok w R) D).
Qed.

Lemma written_document_is_read_back_witness :
  reachable two_reviews
  /\ exists b,
       document_of (snd (handle two_reviews (UpdateReview (review_by 8 0 4 "better"))))
       = Some b
       /\ map rating (reviews b) = [5; 4]
       /\ getBookById (at_book 0)
            (fst (handle two_reviews (UpdateReview (review_by 8 0 4 "better"))))
          = respond 200 (BookDoc b).
Proof.
  split; [exact two_reviews_reachable|].
  eexists. split; [vm_compute; reflexivity|]. split; [reflexivity|].
  exact (written_document_is_read_back two_reviews
           (UpdateReview (review_by 8 0 4 "better")) _
           two_reviews_reachable eq_refl).
Defined.

(** ** addReview *)

Lemma validateReview_some (body : ReviewBody) (z : Z) (c : string) :
  validateReview body = Some (z, c) ->
  body_rating body = Some z /\ c = sanitized (body_comment body)
  /\ 1 <= z <= 5 /\ c <> "".
Proof.
  unfold validateReview. destruct (body_rating body) as [z'|]; [|discriminate].
  destruct ((1 <=? z') && (z' <=? 5) && notEmpty (sanitized (body_comment body)))
    eqn:E; [|discriminate].
  intro H. injection H as <- <-.
  rewrite !andb_true_iff in E. destruct E as [[H1 H2] H3].
  apply Z.leb_le in H1, H2. repeat split; auto; try lia.
  now apply notEmpty_true.
Qed.

(** The shape of an addReview that is answered 201. *)
Lemma addReview_created (req : ReviewRequest) (w : World) :
  status (snd (addReview req w)) = 201%nat ->
  exists z c i book,
    validateReview (req_body req) = Some (z, c)
    /\ param_id (req_params req) = Some (Wellformed i)
    /\ findById w i = Some book
    /\ review_of (req_user req) (reviews book) = None
    /\ validate false
         (set_reviews book
            (reviews book ++ [mkReview (next_oid w) (req_user req) z c])) = true
    /\ addReview req w
       = (updateOne
            (updateRating
               (set_reviews book
                  (reviews book ++ [mkReview (next_oid w) (req_user req) z c])))
            (drawn 1 w),
          respond 201
            (MessageBook "Review added successfully"
               (updateRating
                  (set_reviews book
                     (reviews book ++ [mkReview (next_oid w) (req_user req) z c]))))).
Proof.
  unfold addReview.
  destruct (validateReview (req_body req)) as [[z c]|]; [|discriminate].
  destruct (param_id (req_params req)) as [[|i]|]; try discriminate.
  destruct (findById w i) as [book|] eqn:F; [|discriminate].
  destruct (review_of (req_user req) (reviews book)) eqn:E; [discriminate|].
  destruct (save false _ _) as [[w2 saved]|] eqn:S; [|discriminate].
  intros _. apply save_inv in S. destruct S as (V & -> & ->).
  exists z, c, i, book. repeat split; auto.
Qed.

Lemma consistent_total (b : Book) :
  consistent b -> totalReviews b = Z.of_nat (length (reviews b)).
Proof.
  unfold consistent. destruct (reviews b); intros [_ H]; exact H.
Qed.

(** X6.  On a reachable world, an addReview answered 201 has appended one
    review to the book, after the others: the review of the requesting
    user, with the rating and the trimmed comment of the body; the count
    has grown by one, and every other book is as it was. *)
Theorem addReview_appends (w : World) (req : ReviewRequest) :
  reachable w ->
  status (snd (addReview req w)) = 201%nat ->
  exists i book saved r,
    param_id (req_params req) = Some (Wellformed i)
    /\ findById w i = Some book
    /\ document_of (snd (addReview req w)) = Some saved
    /\ reviews saved = reviews book ++ [r]
    /\ user r = req_user req
    /\ body_rating (req_body req) = Some (rating r)
    /\ comment r = trim (match body_comment (req_body req) with
                         | Some s => s
                         | None => ""
                         end)
    /\ totalReviews saved = totalReviews book + 1
    /\ (forall j, j <> i ->
          findById (fst (addReview req w)) j = findById w j).
Proof.
  intros R St. pose proof (reachable_ok w R) as Ok.
  destruct (addReview_created req w St) as (z & c & i & book & V & P & F & E & _ & A).
  destruct (validateReview_some _ z c V) as (Hz & Hc & _ & _).
  pose proof (findById_In w i book F) as [_ Eid].
  pose proof (ok_consistent _ _ (findById_ok w i book Ok F)) as C.
  exists i, book,
         (updateRating
            (set_reviews book
               (reviews book ++ [mkReview (next_oid w) (req_user req) z c]))),
         (mkReview (next_oid w) (req_user req) z c).
  rewrite A. cbn [fst snd].
  split; [exact P|]. split; [exact F|]. split; [reflexivity|].
  split; [now rewrite updateRating_reviews|]. split; [reflexivity|].
  split; [exact Hz|]. split; [exact Hc|]. split.
  - rewrite (consistent_total _ (updateRating_consistent _)), (consistent_total _ C).
    rewrite updateRating_reviews. cbn [reviews set_reviews].
    rewrite length_app. cbn [length]. lia.
  - intros j NE.
    rewrite findById_updateOne_other by (rewrite updateRating_book_id; cbn; congruence).
    reflexivity.
Qed.

Lemma addReview_appends_witness :
  reachable two_reviews
  /\ status (snd (addReview (review_by 9 0 4 "  fine ") two_reviews)) = 201%nat
  /\ exists saved,
       document_of (snd (addReview (review_by 9 0 4 "  fine ") two_reviews))
       = Some saved
       /\ map comment (reviews saved) = ["superb"; "dull"; "fine"]
       /\ totalReviews saved = 3.
Proof.
  split; [exact two_reviews_reachable|]. split; [reflexivity|].
  destruct (addReview_appends two_reviews (review_by 9 0 4 "  fine ")
              two_reviews_reachable eq_refl)
    as (i & book & saved & r & P & F & D & _).
  exists saved. split; [exact D|].
  vm_compute in D. injection D as <-. split; reflexivity.
Defined.

Lemma sum_ratings_app (rs rs' : list Review) :
  sum_ratings (rs ++ rs') = sum_ratings rs + sum_ratings rs'.
Proof.
  induction rs as [|r rs IH]; cbn [app sum_ratings]; lia.
Qed.

Lemma quotient_spec_pushed (r0 : Review) (rs : list Review) (r : Review) :
  let old := quotient_spec (r0 :: rs) in
  let new := quotient_spec ((r0 :: rs) ++ [r]) in
  ((old <= inject_Z (rating r))%Q ->
     (old <= new)%Q /\ (new <= inject_Z (rating r))%Q)
  /\ ((inject_Z (rating r) <= old)%Q ->
     (inject_Z (rating r) <= new)%Q /\ (new <= old)%Q).
Proof.
  cbn zeta. unfold quotient_spec, Qle. cbn [Qnum Qden inject_Z].
  rewrite sum_ratings_app. cbn [sum_ratings].
  rewrite !Zpos_of_nat by (rewrite ?length_app; cbn; lia).
  rewrite length_app. cbn [length].
  rewrite Nat2Z.inj_add. cbn [Z.of_nat].
  set (s := sum_ratings (r0 :: rs)). set (n := Z.of_nat (S (length rs))).
  assert (Hn : 0 < n) by (unfold n; lia).
  change (Z.of_nat (S (length rs))) with n.
  change (Z.pos (Pos.of_succ_nat 0)) with 1. cbn [sum_ratings] in s.
  split; intro H; split; nia.
Qed.

(** X7.  On a world reached by requests whose ratings are integers, the
    average being the exact quotient, an addReview answered 201 moves the
    average toward the new rating and never past it: the new average lies
    between the old one and the rating; on a book without reviews it is
    the rating itself. *)
Theorem addReview_moves_average (w : World) (req : ReviewRequest) :
  reachable w ->
  status (snd (addReview req w)) = 201%nat ->
  exists i book saved z,
    param_id (req_params req) = Some (Wellformed i)
    /\ findById w i = Some book
    /\ document_of (snd (addReview req w)) = Some saved
    /\ body_rating (req_body req) = Some z
    /\ (reviews book = [] -> (averageRating saved == inject_Z z)%Q)
    /\ ((averageRating book <= inject_Z z)%Q ->
          (averageRating book <= averageRating saved)%Q
          /\ (averageRating saved <= inject_Z z)%Q)
    /\ ((inject_Z z <= averageRating book)%Q ->
          (inject_Z z <= averageRating saved)%Q
          /\ (averageRating saved <= averageRating book)%Q).
Proof.
  intros R St. pose proof (reachable_ok w R) as Ok.
  destruct (addReview_created req w St) as (z & c & i & book & V & P & F & E & _ & A).
  destruct (validateReview_some _ z c V) as (Hz & _ & Bz & _).
  pose proof (ok_consistent _ _ (findById_ok w i book Ok F)) as C.
  set (r := mkReview (next_oid w) (req_user req) z c) in *.
  pose proof (updateRating_consistent (set_reviews book (reviews book ++ [r]))) as C'.
  exists i, book, (updateRating (set_reviews book (reviews book ++ [r]))), z.
  rewrite A. cbn [fst snd].
  split; [exact P|]. split; [exact F|]. split; [reflexivity|]. split; [exact Hz|].
  unfold consistent in C, C'. rewrite updateRating_reviews in C'.
  cbn [reviews set_reviews] in C'.
  destruct (reviews book) as [|r0 rs] eqn:Ers.
  - cbn [app] in *. destruct C' as [A' _]. destruct C as [A0 _].
    assert (Q1 : (quotient_spec [r] == inject_Z z)%Q).
    { unfold Qeq, quotient_spec. cbn. lia. }
    rewrite A', A0, Q1.
    split; [reflexivity|]. split; intro H; split; auto; apply Qle_refl.
  - change ((r0 :: rs) ++ [r]) with (r0 :: (rs ++ [r])) in C'.
    destruct C' as [A' _]. destruct C as [A0 _].
    pose proof (quotient_spec_pushed r0 rs r) as [Up Down].
    cbn zeta in Up, Down. change (rating r) with z in Up, Down.
    change (r0 :: rs ++ [r]) with ((r0 :: rs) ++ [r]) in A'.
    split; [discriminate|]. rewrite A', A0. split; assumption.
Qed.

Lemma addReview_moves_average_witness :
  reachable two_reviews
  /\ status (snd (addReview (review_by 9 0 5 "fine") two_reviews)) = 201%nat
  /\ exists saved,
       document_of (snd (addReview (review_by 9 0 5 "fine") two_reviews)) = Some saved
       /\ (7 # 2 <= averageRating saved)%Q /\ (averageRating saved <= 5)%Q.
Proof.
  split; [exact two_reviews_reachable|]. split; [reflexivity|].
  destruct (addReview_moves_average two_reviews (review_by 9 0 5 "fine")
              two_reviews_reachable eq_refl)
    as (i & book & saved & z & P & F & D & Hz & _ & Up & _).
  exists saved. split; [exact D|].
  injection P as <-.
  vm_compute in F. injection F as <-.
  injection Hz as <-.
  apply Up. vm_compute. discriminate.
Defined.

(** X8.  After an addReview answered 201, any further addReview of the
    same user on the same book, whatever its body, is answered 400 and
    leaves the world as it is. *)
Theorem addReview_twice_refused (w : World) (req : ReviewRequest) (body : ReviewBody) :
  status (snd (addReview req w)) = 201%nat ->
  addReview (with_body req body) (fst (addReview req w))
  = (fst (addReview req w),
     respond 400
       (match validateReview body with
        | Some _ => Message "You have already reviewed this book"
        | None => ValidationErrors
        end)).
Proof.
  intro St.
  destruct (addReview_created req w St) as (z & c & i & book & V & P & F & E & _ & A).
  rewrite A. cbn [fst].
  pose proof (findById_In w i book F) as [_ Eid].
  unfold addReview at 1. cbn [with_body req_body req_params req_user].
  destruct (validateReview body) as [[z' c']|]; [|reflexivity].
  rewrite P.
  rewrite (findById_updateOne_found (drawn 1 w) _ book i F)
    by now rewrite updateRating_book_id.
  rewrite updateRating_reviews. cbn [reviews set_reviews].
  now rewrite (review_of_pushed _ (next_oid w) z c (reviews book) E).
Qed.

Lemma addReview_twice_refused_witness :
  status (snd (addReview (review_by 9 0 4 "fine") two_reviews)) = 201%nat
  /\ snd (addReview (with_body (review_by 9 0 4 "fine")
                                (mkReviewBody (Some 1) (Some "or not")))
                    (fst (addReview (review_by 9 0 4 "fine") two_reviews)))
     = respond 400 (Message "You have already reviewed this book").
Proof.
  split; [reflexivity|].
  now rewrite (addReview_twice_refused two_reviews (review_by 9 0 4 "fine")
                 (mkReviewBody (Some 1) (Some "or not")) eq_refl).
Defined.

(** ** updateReview *)

(** X9.  Where addReview is answered 201, updateReview with the same
    request stores the same world and answers with the same document,
    under status 200: for a user without a review the update is the add. *)
Theorem updateReview_adds_like_addReview (w : World) (req : ReviewRequest) :
  status (snd (addReview req w)) = 201%nat ->
  fst (updateReview req w) = fst (addReview req w)
  /\ document_of (snd (updateReview req w)) = document_of (snd (addReview req w))
  /\ status (snd (updateReview req w)) = 200%nat.
Proof.
  intro St.
  destruct (addReview_created req w St) as (z & c & i & book & V & P & F & E & VP & A).
  rewrite A. unfold updateReview. rewrite V, P, F, E.
  unfold save, pre_save. rewrite VP. repeat split.
Qed.

Lemma updateReview_adds_like_addReview_witness :
  status (snd (addReview (review_by 9 0 4 "fine") two_reviews)) = 201%nat
  /\ fst (updateReview (review_by 9 0 4 "fine") two_reviews)
     = fst (addReview (review_by 9 0 4 "fine") two_reviews).
Proof.
  split; [reflexivity|].
  exact (proj1 (updateReview_adds_like_addReview two_reviews
                  (review_by 9 0 4 "fine") eq_refl)).
Defined.

Lemma review_of_assigned_value (u : ObjectId) (z : Z) (c : string)
      (rs : list Review) (r0 : Review) :
  review_of u rs = Some r0 ->
  review_of u (assign_first u z c rs) = Some (mkReview (review_id r0) u z c).
Proof.
  unfold review_of. induction rs as [|r rs IH]; cbn; [discriminate|].
  destruct (N.eqb_spec (user r) u) as [Eu|Nu]; cbn.
  - intro H. injection H as <-. destruct (N.eqb_spec (user r) u); congruence.
  - destruct (N.eqb_spec (user r) u); [contradiction|exact IH].
Qed.

Lemma others_after_assign (u : ObjectId) (z : Z) (c : string) (rs : list Review) :
  reviews_of_others u (assign_first u z c rs) = reviews_of_others u rs.
Proof.
  unfold reviews_of_others. induction rs as [|r rs IH]; cbn; [reflexivity|].
  destruct (user r =? u)%N eqn:E; cbn; rewrite E; cbn; [reflexivity|].
  now rewrite IH.
Qed.

Lemma others_after_push (u n : ObjectId) (z : Z) (c : string) (rs : list Review) :
  reviews_of_others u (rs ++ [mkReview n u z c]) = reviews_of_others u rs.
Proof.
  unfold reviews_of_others. rewrite filter_app. cbn.
  rewrite N.eqb_refl. cbn. apply app_nil_r.
Qed.

(** X10.  An updateReview answered 200 leaves the book with a review of
    the requesting user that carries the rating and the trimmed comment of
    the body; the reviews of the other users are what they were, in their
    order, and the user's review is the one he had, or a new one if he had
    none. *)
Theorem updateReview_sets_review (w : World) (req : ReviewRequest) :
  status (snd (updateReview req w)) = 200%nat ->
  exists i book saved r,
    param_id (req_params req) = Some (Wellformed i)
    /\ findById w i = Some book
    /\ document_of (snd (updateReview req w)) = Some saved
    /\ review_of (req_user req) (reviews saved) = Some r
    /\ body_rating (req_body req) = Some (rating r)
    /\ comment r = trim (match body_comment (req_body req) with
                         | Some s => s
                         | None => ""
                         end)
    /\ reviews_of_others (req_user req) (reviews saved)
       = reviews_of_others (req_user req) (reviews book)
    /\ match review_of (req_user req) (reviews book) with
       | Some old => review_id r = review_id old
                     /\ length (reviews saved) = length (reviews book)
       | None => length (reviews saved) = S (length (reviews book))
       end.
Proof.
  unfold updateReview.
  destruct (validateReview (req_body req)) as [[z c]|] eqn:V; [|discriminate].
  destruct (validateReview_some _ z c V) as (Hz & Hc & _ & _).
  destruct (param_id (req_params req)) as [[|i]|]; try discriminate.
  destruct (findById w i) as [book|] eqn:F; [|discriminate].
  destruct (review_of (req_user req) (reviews book)) as [old|] eqn:E;
    destruct (save false _ _) as [[w2 saved]|] eqn:S; try discriminate;
    intros _; apply save_inv in S; destruct S as (_ & -> & ->);
    cbn [snd document_of payload].
  - do 4 eexists.
    split; [reflexivity|]. split; [exact F|]. split; [reflexivity|].
    rewrite updateRating_reviews, E. cbn [reviews set_reviews].
    split; [apply review_of_assigned_value; exact E|].
    cbn [rating comment review_id].
    split; [exact Hz|]. split; [exact Hc|].
    split; [apply others_after_assign|]. split; [reflexivity|].
    rewrite <- (length_map review_id), assign_first_ids. apply length_map.
  - do 4 eexists.
    split; [reflexivity|]. split; [exact F|]. split; [reflexivity|].
    rewrite updateRating_reviews, E. cbn [reviews set_reviews].
    split; [apply review_of_pushed; exact E|].
    cbn [rating comment review_id].
    split; [exact Hz|]. split; [exact Hc|].
    split; [apply others_after_push|].
    rewrite length_app. cbn. lia.
Qed.

Lemma updateReview_sets_review_witness :
  status (snd (updateReview (review_by 8 0 4 " better ") two_reviews)) = 200%nat
  /\ exists saved r,
       document_of (snd (updateReview (review_by 8 0 4 " better ") two_reviews))
       = Some saved
       /\ review_of 8 (reviews saved) = Some r
       /\ rating r = 4 /\ comment r = "better".
Proof.
  split; [reflexivity|].
  destruct (updateReview_sets_review two_reviews (review_by 8 0 4 " better ") eq_refl)
    as (i & book & saved & r & _ & _ & D & Er & Hz & Hc & _).
  exists saved, r. split; [exact D|]. split; [exact Er|].
  injection Hz as <-. split; [reflexivity|exact Hc].
Defined.

(** ** deleteReview and the reviews of the others *)

Lemma reviews_id_found (p : option IdParam) (rs : list Review) (r : Review) :
  reviews_id p rs = Some r -> In r rs.
Proof.
  destruct p as [[|rid]|]; cbn; try discriminate.
  intro H. now apply find_some in H.
Qed.

(** X11.  On a reachable world, in a book whose reviews have distinct
    ids, deleteReview never removes a review of another user: whatever the
    parameters, a review whose author is not the requesting user is still
    in its book afterwards. *)
Theorem deleteReview_spares_others (w : World) (u : ObjectId) (params : Params)
        (book : Book) (v : Review) :
  reachable w ->
  In book (books w) -> NoDup (map review_id (reviews book)) ->
  In v (reviews book) -> user v <> u ->
  exists book',
    findById (fst (deleteReview u params w)) (book_id book) = Some book'
    /\ In v (reviews book').
Proof.
  intros R Hb Distinct Hv Nu. pose proof (reachable_ok w R) as Ok.
  pose proof (findById_present w book Ok Hb) as F0.
  assert (Same : exists book', findById w (book_id book) = Some book'
                               /\ In v (reviews book'))
    by (exists book; now split).
  unfold deleteReview.
  destruct (param_id params) as [[|i]|]; try exact Same.
  destruct (findById w i) as [target|] eqn:F; [|exact Same].
  destruct (reviews_id (param_reviewId params) (reviews target)) as [review|] eqn:Er;
    [|exact Same].
  destruct (N.eqb_spec (user review) u) as [Eu|_]; cbn [negb]; [|exact Same].
  destruct (save false _ _) as [[w2 saved]|] eqn:S; cbn [fst]; [|exact Same].
  apply save_inv in S. destruct S as (_ & -> & ->).
  pose proof (findById_In w i target F) as [_ Eid].
  destruct (N.eq_dec (book_id book) i) as [E|NE].
  - rewrite E in F0. rewrite F in F0. injection F0 as ->.
    eexists. split.
    + apply (findById_updateOne_found w _ book); [rewrite E; exact F|].
      now rewrite updateRating_book_id.
    + rewrite updateRating_reviews. cbn [reviews set_reviews].
      unfold pull. apply filter_In. split; [exact Hv|].
      apply negb_true_iff. apply N.eqb_neq. intro Eids.
      apply Nu. rewrite <- Eu. f_equal.
      apply (NoDup_map_eq review_id (reviews book)); auto.
      exact (reviews_id_found _ _ _ Er).
  - exists book. split; [|exact Hv].
    rewrite findById_updateOne_other; [exact F0|].
    rewrite updateRating_book_id. cbn. congruence.
Qed.

Lemma deleteReview_spares_others_witness :
  reachable two_reviews
  /\ NoDup (map review_id [mkReview 1 7 5 "superb"; mkReview 2 8 2 "dull"])
  /\ exists book',
       findById (fst (deleteReview 8 (at_review 0 2) two_reviews)) 0 = Some book'
       /\ In (mkReview 1 7 5 "superb") (reviews book').
Proof.
  assert (Distinct : NoDup (map review_id [mkReview 1 7 5 "superb";
                                            mkReview 2 8 2 "dull"])).
  { cbn. repeat constructor; cbn; intuition discriminate. }
  split; [exact two_reviews_reachable|]. split; [exact Distinct|].
  exact (deleteReview_spares_others two_reviews 8 (at_review 0 2)
           (updateRating
              (mkBook 0 "Dune" "Frank Herbert" "Science Fiction" "Arrakis"
                      [mkReview 1 7 5 "superb"; mkReview 2 8 2 "dull"]
                      0%Q 0 0%nat))
           (mkReview 1 7 5 "superb")
           two_reviews_reachable (or_introl eq_refl) Distinct (or_introl eq_refl)
           ltac:(discriminate)).
Defined.

(** ** One review per user, from the bodies of createBook *)

Lemma cast_reviews_users (ins : list ReviewInput) (o : ObjectId) :
  map user (cast_reviews ins o) = map in_user ins.
Proof.
  revert o. induction ins as [|i ins IH]; intro o; cbn; [reflexivity|].
  now rewrite IH.
Qed.

Lemma createBook_keeps_one_per_user (now : nat) (body : BookBody) (w : World) :
  reviewers_distinct body ->
  Forall one_review_per_user (books w) ->
  Forall one_review_per_user (books (fst (createBook now body w))).
Proof.
  intros D H. unfold createBook.
  destruct (validateBook body); cbn [negb fst]; [|exact H].
  destruct (save true _ _) as [[w2 saved]|] eqn:S; cbn [fst]; [|exact H].
  apply save_inv in S. destruct S as (_ & -> & ->).
  cbn [insertOne books drawn]. apply Forall_app. split; [exact H|].
  constructor; [|constructor].
  unfold one_review_per_user. rewrite updateRating_reviews.
  cbn [reviews new_Book]. now rewrite cast_reviews_users.
Qed.

Lemma run_keeps_one_per_user (rs : list Request) (w : World) :
  created_with reviewers_distinct rs ->
  Forall one_review_per_user (books w) ->
  Forall one_review_per_user (books (run rs w)).
Proof.
  revert w. induction rs as [|r rs IH]; intros w C H; cbn [run fold_left]; [exact H|].
  apply IH.
  - destruct r; cbn [created_with] in C; tauto.
  - destruct r as [now body|req|req|u params].
    + cbn [handle]. apply createBook_keeps_one_per_user; [|exact H].
      cbn [created_with] in C. tauto.
    + apply review_handlers_keep_one_per_user; [discriminate|exact H].
    + apply review_handlers_keep_one_per_user; [discriminate|exact H].
    + apply review_handlers_keep_one_per_user; [discriminate|exact H].
Qed.

(** X12.  When no body of createBook names a user twice among its reviews
    (in particular when the bodies carry no reviews), no stored book ever
    has two reviews of one user: addReview, updateReview and deleteReview
    never give a user a second review. *)
Theorem one_review_per_user_reached (rs : list Request) :
  created_with reviewers_distinct rs ->
  Forall one_review_per_user (books (run rs init_world)).
Proof.
  intro C. apply run_keeps_one_per_user; [exact C|constructor].
Qed.

Lemma one_review_per_user_reached_witness :
  created_with reviewers_distinct
    [CreateBook 0 dune; AddReview (review_by 7 0 5 "superb");
     UpdateReview (review_by 8 0 2 "dull"); AddReview (review_by 8 0 1 "again")]
  /\ Forall one_review_per_user
       (books (run [CreateBook 0 dune; AddReview (review_by 7 0 5 "superb");
                    UpdateReview (review_by 8 0 2 "dull");
                    AddReview (review_by 8 0 1 "again")] init_world)).
Proof.
  assert (C : created_with reviewers_distinct
                [CreateBook 0 dune; AddReview (review_by 7 0 5 "superb");
                 UpdateReview (review_by 8 0 2 "dull");
                 AddReview (review_by 8 0 1 "again")]).
  { cbn. split; [constructor|exact I]. }
  split; [exact C|].
  exact (one_review_per_user_reached _ C).
Defined.

(** ** The pages of the listing *)

Lemma firstn_plus {A : Type} (a b : nat) (l : list A) :
  firstn (a + b) l = firstn a l ++ firstn b (skipn a l).
Proof.
  revert l. induction a as [|a IH]; intro l; [reflexivity|].
  destruct l as [|x l]; cbn [Nat.add firstn skipn app].
  - now rewrite firstn_nil.
  - now rewrite IH.
Qed.

Lemma slices_concat {A : Type} (k n : nat) (all : list A) :
  concat (map (fun j => firstn k (skipn (j * k) all)) (seq 0 n))
  = firstn (n * k) all.
Proof.
  induction n as [|n IH]; [reflexivity|].
  rewrite seq_S, map_app, concat_app, IH. cbn [Nat.add map concat].
  rewrite app_nil_r. replace (S n * k)%nat with (n * k + k)%nat by lia.
  now rewrite firstn_plus.
Qed.

Lemma listed_books (RegExp_i : string -> option (string -> bool))
      (q : ListQuery) (w : World) (p l : Z) :
  searches_plain_text RegExp_i ->
  plain (q_author q) = true -> plain (q_genre q) = true ->
  reads (q_page q) 1 p -> reads (q_limit q) 10 l ->
  exists pages,
    getAllBooks RegExp_i q w
    = respond 200
        (Page (firstn (Z.to_nat l)
                 (skipn (Z.to_nat ((p - 1) * l))
                    (sort_by newest_first (filter (matching q) (books w)))))
              p pages (Z.of_nat (length (filter (matching q) (books w))))).
Proof.
  intros HR Pa Pg Rp Rl.
  destruct (condition_plain RegExp_i (q_author q) HR Pa) as (ta & Ca & Ha).
  destruct (condition_plain RegExp_i (q_genre q) HR Pg) as (tg & Cg & Hg).
  assert (E : filter (selects ta tg) (books w) = filter (matching q) (books w)).
  { apply filter_ext. intro b. unfold selects, matching. now rewrite Ha, Hg. }
  pose proof (getAllBooks_page RegExp_i q w ta tg p l Ca Cg Rp Rl) as G.
  unfold countDocuments in G. rewrite E in G.
  eexists. exact G.
Qed.

(** X13.  The pages of a listing cover it without overlap: for a limit
    [l] and page texts that read as 1, 2, ..., n, with n * l at least the
    number of matching books, the books of the answers, one page after the
    other, are exactly the matching books, newest first. *)
Theorem pages_cover_listing (RegExp_i : string -> option (string -> bool))
        (w : World) (qa qg ql : option string) (l : Z) (texts : list string) :
  searches_plain_text RegExp_i ->
  plain qa = true -> plain qg = true ->
  reads ql 10 l ->
  Forall2 (fun t p => parseInt (Some t) = Some p)
          texts (page_numbers (length texts)) ->
  Z.of_nat (length (filter (matching (mkListQuery None ql qa qg)) (books w)))
  <= Z.of_nat (length texts) * l ->
  concat (map (fun t => found_of (getAllBooks RegExp_i
                                    (mkListQuery (Some t) ql qa qg) w))
              texts)
  = sort_by newest_first (filter (matching (mkListQuery None ql qa qg)) (books w)).
Proof.
  intros HR Pa Pg Rl Texts Enough.
  set (all := sort_by newest_first
                (filter (matching (mkListQuery None ql qa qg)) (books w))).
  destruct (reads_value _ 10 l ltac:(lia) Rl) as [_ Hl].
  assert (Each : forall t j,
             parseInt (Some t) = Some (Z.of_nat (S j)) ->
             found_of (getAllBooks RegExp_i (mkListQuery (Some t) ql qa qg) w)
             = firstn (Z.to_nat l) (skipn (j * Z.to_nat l) all)).
  { intros t j Ht.
    assert (Rp : reads (Some t) 1 (Z.of_nat (S j))) by (right; split; [exact Ht|lia]).
    destruct (listed_books RegExp_i (mkListQuery (Some t) ql qa qg) w
                (Z.of_nat (S j)) l HR Pa Pg Rp Rl) as [pages G].
    rewrite G. cbn [found_of payload].
    replace (Z.to_nat ((Z.of_nat (S j) - 1) * l)) with (j * Z.to_nat l)%nat by nia.
    reflexivity. }
  assert (Slices : forall ts js,
             Forall2 (fun t p => parseInt (Some t) = Some p)
                     ts (map Z.of_nat (map S js)) ->
             map (fun t => found_of (getAllBooks RegExp_i
                                       (mkListQuery (Some t) ql qa qg) w)) ts
             = map (fun j => firstn (Z.to_nat l) (skipn (j * Z.to_nat l) all)) js).
  { induction ts as [|t ts IH]; intros [|j js] H; inversion H; subst;
      cbn [map]; [reflexivity|].
    f_equal; [now apply Each|now apply IH]. }
  unfold page_numbers in Texts. rewrite <- seq_shift in Texts.
  rewrite (Slices texts (seq 0 (length texts)) Texts), slices_concat.
  apply firstn_all2. unfold all.
  rewrite <- (Permutation_length (sort_by_perm newest_first _)). nia.
Qed.

Lemma pages_cover_listing_witness :
  searches_plain_text plain_RegExp
  /\ reads (Some "10") 10 10
  /\ Forall2 (fun t p => parseInt (Some t) = Some p) ["1"; "2"] (page_numbers 2)
  /\ concat (map (fun t => found_of (getAllBooks plain_RegExp
                                       (mkListQuery (Some t) (Some "10")
                                                    (Some "herbert") None)
                                       fifteen_books))
                 ["1"; "2"])
     = sort_by newest_first
         (filter (matching (mkListQuery None (Some "10") (Some "herbert") None))
                 (books fifteen_books)).
Proof.
  assert (Rl : reads (Some "10") 10 10) by (right; split; [reflexivity|lia]).
  assert (T : Forall2 (fun t p => parseInt (Some t) = Some p)
                      ["1"; "2"] (page_numbers 2))
    by (repeat constructor).
  split; [exact plain_RegExp_searches|]. split; [exact Rl|]. split; [exact T|].
  apply (pages_cover_listing plain_RegExp fifteen_books (Some "herbert") None
           (Some "10") 10 ["1"; "2"] plain_RegExp_searches eq_refl eq_refl Rl T).
  vm_compute. discriminate.
Defined.

(** X14.  A page past the last one is an empty page, not an error.  Let
    the filters compile, the kept books being those whose author and genre
    the compiled expressions accept, and let the page, the limit and
    (page - 1) * limit be numbers that a Number holds exactly: when
    (page - 1) * limit is at least the number of kept books, the listing
    answers 200 with no books, the page number, and the count. *)
Theorem page_past_the_end_is_empty (RegExp_i : string -> option (string -> bool))
        (q : ListQuery) (w : World) (ta tg : string -> bool) (p l : Z) :
  asks RegExp_i (q_author q) ta -> asks RegExp_i (q_genre q) tg ->
  reads (q_page q) 1 p -> reads (q_limit q) 10 l ->
  exact p -> exact l -> exact ((p - 1) * l) ->
  Z.of_nat (length (filter (fun b => ta (author b) && tg (genre b)) (books w)))
  <= (p - 1) * l ->
  exists pages,
    getAllBooks RegExp_i q w
    = respond 200
        (Page [] p pages
              (Z.of_nat (length (filter (fun b => ta (author b) && tg (genre b))
                                        (books w))))).
Proof.
  intros Aa Ag Rp Rl _ _ _ Past.
  rewrite (getAllBooks_asked RegExp_i q w ta tg p l Aa Ag Rp Rl).
  eexists. rewrite skipn_all2; [now rewrite firstn_nil|].
  rewrite <- (Permutation_length (sort_by_perm newest_first _)). lia.
Qed.

Lemma page_past_the_end_is_empty_witness :
  asks dot_RegExp (Some ".") (fun x => existsb (fun c => negb (line_terminator c))
                                               (list_ascii_of_string x))
  /\ reads (Some "3") 1 3 /\ reads None 10 10
  /\ exact 3 /\ exact 10 /\ exact ((3 - 1) * 10)
  /\ exists pages,
       getAllBooks dot_RegExp (mkListQuery (Some "3") None (Some ".") None)
                   fifteen_books
       = respond 200 (Page [] 3 pages 15).
Proof.
  assert (Rp : reads (Some "3") 1 3) by (right; split; [reflexivity|lia]).
  assert (Rl : reads None 10 10) by (left; split; [exact I|reflexivity]).
  assert (Ep : exact 3) by (unfold exact; cbn; lia).
  assert (El : exact 10) by (unfold exact; cbn; lia).
  assert (Es : exact ((3 - 1) * 10)) by (unfold exact; cbn; lia).
  split; [reflexivity|]. split; [exact Rp|]. split; [exact Rl|].
  split; [exact Ep|]. split; [exact El|]. split; [exact Es|].
  destruct (page_past_the_end_is_empty dot_RegExp
              (mkListQuery (Some "3") None (Some ".") None) fifteen_books
              (fun x => existsb (fun c => negb (line_terminator c))
                                (list_ascii_of_string x))
              (fun _ => true) 3 10
              eq_refl (fun _ => eq_refl) Rp Rl Ep El Es) as [pages G].
  - vm_compute. discriminate.
  - exists pages. rewrite G. vm_compute. reflexivity.
Defined.

(** ** Trimmed texts *)

Lemma trimStart_chars (s : string) :
  list_ascii_of_string (trimStart s) = drop_spaces (list_ascii_of_string s).
Proof.
  induction s as [|c s IH]; cbn; [reflexivity|].
  destruct (is_space c); [exact IH|reflexivity].
Qed.

Lemma trim_chars (s : string) :
  list_ascii_of_string (trim s)
  = rev (drop_spaces (rev (drop_spaces (list_ascii_of_string s)))).
Proof.
  unfold trim, rev_string.
  rewrite list_ascii_of_string_of_list_ascii, trimStart_chars.
  now rewrite list_ascii_of_string_of_list_ascii, trimStart_chars.
Qed.

Lemma drop_spaces_head (l : list ascii) :
  match drop_spaces l with
  | [] => True
  | c :: _ => is_space c = false
  end.
Proof.
  induction l as [|c l IH]; cbn; [exact I|].
  destruct (is_space c) eqn:E; [exact IH|exact E].
Qed.

Lemma drop_spaces_split (l : list ascii) :
  exists sp, l = sp ++ drop_spaces l /\ forallb is_space sp = true.
Proof.
  induction l as [|c l (sp & E & H)]; cbn.
  - now exists [].
  - destruct (is_space c) eqn:Ec.
    + exists (c :: sp). cbn. rewrite Ec, H. split; [now f_equal|reflexivity].
    + now exists [].
Qed.

Lemma drop_spaces_nil (l : list ascii) :
  drop_spaces l = [] <-> forallb is_space l = true.
Proof.
  induction l as [|c l IH]; cbn; [tauto|].
  destruct (is_space c); cbn; [exact IH|]. split; discriminate.
Qed.

Lemma last_cons_default {A : Type} (x d : A) (l : list A) :
  last (x :: l) d = last l x.
Proof.
  revert x d. induction l as [|y l IH]; intros x d; [reflexivity|].
  change (last (x :: y :: l) d) with (last (y :: l) d).
  change (last (y :: l) x) with (last (y :: l) x).
  now rewrite (IH y d), (IH y x).
Qed.

Lemma trim_no_outer_space (s : string) : no_outer_space (trim s).
Proof.
  unfold no_outer_space. rewrite trim_chars.
  set (m := drop_spaces (list_ascii_of_string s)).
  pose proof (drop_spaces_head (list_ascii_of_string s)) as Hm. fold m in Hm.
  pose proof (drop_spaces_head (rev m)) as Hd.
  destruct (drop_spaces_split (rev m)) as (sp & E & _).
  destruct (drop_spaces (rev m)) as [|c d]; [exact I|].
  assert (Em : m = rev (c :: d) ++ rev sp).
  { rewrite <- rev_app_distr, <- E. symmetry. apply rev_involutive. }
  destruct (rev (c :: d)) as [|x k] eqn:Ek.
  - cbn in Ek. now destruct (rev d).
  - rewrite Em in Hm. cbn in Hm. split; [exact Hm|].
    rewrite <- (last_cons_default x x k), <- Ek. cbn [rev].
    now rewrite last_last.
Qed.

Lemma trim_empty_iff (s : string) : trim s = "" <-> blank s = true.
Proof.
  unfold blank.
  assert (L : trim s = "" <-> list_ascii_of_string (trim s) = []).
  { split; [now intros ->|]. destruct (trim s); [reflexivity|discriminate]. }
  rewrite L, trim_chars. clear L.
  set (l := list_ascii_of_string s).
  pose proof (drop_spaces_head l) as Hm.
  split.
  - intro H. apply (f_equal (@rev ascii)) in H. rewrite rev_involutive in H.
    cbn in H. apply drop_spaces_nil in H.
    destruct (drop_spaces l) as [|c m] eqn:Em; [now apply drop_spaces_nil|].
    rewrite forallb_forall in H.
    rewrite (H c) in Hm; [discriminate|].
    apply in_rev. rewrite rev_involutive. now left.
  - intro H. apply drop_spaces_nil in H. now rewrite H.
Qed.

Lemma sanitized_empty_iff (f : option string) :
  notEmpty (sanitized f) = false <-> missing_or_blank f = true.
Proof.
  unfold notEmpty, sanitized. rewrite negb_false_iff, String.eqb_eq, trim_empty_iff.
  destruct f; [reflexivity|]. cbn. tauto.
Qed.

(** X15.  createBook answers 400 exactly when one of title, author, genre
    and description is missing or made of white space only, and then it
    stores nothing and draws no id. *)
Theorem createBook_rejects_blank (now : nat) (body : BookBody) (w : World) :
  (status (snd (createBook now body w)) = 400%nat
   <-> missing_or_blank (body_title body) || missing_or_blank (body_author body)
       || missing_or_blank (body_genre body)
       || missing_or_blank (body_description body) = true)
  /\ (status (snd (createBook now body w)) = 400%nat ->
      createBook now body w = (w, respond 400 ValidationErrors)).
Proof.
  assert (V : validateBook body = false
              <-> missing_or_blank (body_title body)
                  || missing_or_blank (body_author body)
                  || missing_or_blank (body_genre body)
                  || missing_or_blank (body_description body) = true).
  { unfold validateBook. rewrite !andb_false_iff, !orb_true_iff.
    rewrite !sanitized_empty_iff. tauto. }
  unfold createBook. destruct (validateBook body) eqn:E; cbn [negb].
  - destruct (save true _ _) as [[w2 saved]|]; cbn [snd status];
      (split; [split; [discriminate|]|discriminate]);
      intro H; apply V in H; discriminate.
  - cbn [snd status]. split; [|reflexivity].
    split; [intros _; now apply V|reflexivity].
Qed.

Lemma trimmed_recomputed (b : Book) (rs : list Review) :
  texts_trimmed b ->
  Forall (fun r => no_outer_space (comment r)) rs ->
  texts_trimmed (updateRating (set_reviews b rs)).
Proof.
  intros (T1 & T2 & T3 & T4 & _) H. unfold texts_trimmed.
  rewrite updateRating_reviews. unfold updateRating.
  destruct (length (reviews (set_reviews b rs)) =? 0)%nat; cbn; auto.
Qed.

Lemma trimmed_updateRating (b : Book) :
  texts_trimmed b -> texts_trimmed (updateRating b).
Proof.
  intro T. rewrite <- (set_reviews_same b).
  apply trimmed_recomputed; [exact T|apply T].
Qed.

Lemma cast_reviews_trimmed (ins : list ReviewInput) (o : ObjectId) :
  Forall (fun r => no_outer_space (comment r)) (cast_reviews ins o).
Proof.
  revert o. induction ins as [|x xs IH]; intro o; cbn; constructor; auto.
  apply trim_no_outer_space.
Qed.

Lemma assign_first_trimmed (u : ObjectId) (z : Z) (c : string) (rs : list Review) :
  Forall (fun r => no_outer_space (comment r)) rs ->
  no_outer_space c ->
  Forall (fun r => no_outer_space (comment r)) (assign_first u z c rs).
Proof.
  intros H Tc. induction H as [|x xs Hx Hxs IH]; cbn; [constructor|].
  destruct (user x =? u)%N; constructor; assumption.
Qed.

Lemma validated_comment_trimmed (body : ReviewBody) (z : Z) (c : string) :
  validateReview body = Some (z, c) -> no_outer_space c.
Proof.
  intro V. destruct (validateReview_some body z c V) as (_ & -> & _).
  apply trim_no_outer_space.
Qed.

Lemma handle_keeps_trimmed (w : World) (r : Request) :
  Forall texts_trimmed (books w) ->
  Forall texts_trimmed (books (fst (handle w r))).
Proof.
  intro H.
  assert (Found : forall i book, findById w i = Some book -> texts_trimmed book).
  { intros i book F. apply findById_In in F. destruct F as [Hin _].
    rewrite Forall_forall in H. now apply H. }
  destruct r as [now body|req|req|u params]; cbn [handle].
  - unfold createBook.
    destruct (validateBook body); cbn [negb fst]; [|exact H].
    destruct (save true _ _) as [[w2 saved]|] eqn:S; cbn [fst]; [|exact H].
    apply save_inv in S. destruct S as (_ & -> & ->).
    cbn [insertOne books drawn]. apply Forall_app. split; [exact H|].
    constructor; [|constructor].
    apply trimmed_updateRating. unfold texts_trimmed, new_Book, sanitized.
    cbn [title author genre description reviews].
    repeat (split; [apply trim_no_outer_space|]).
    apply cast_reviews_trimmed.
  - unfold addReview.
    destruct (validateReview (req_body req)) as [[z c]|] eqn:V; [|exact H].
    destruct (param_id (req_params req)) as [[|i]|]; try exact H.
    destruct (findById w i) as [book|] eqn:F; [|exact H].
    destruct (review_of (req_user req) (reviews book)); [exact H|].
    destruct (save false _ _) as [[w2 saved]|] eqn:S; cbn [fst]; [|exact H].
    apply save_inv in S. destruct S as (_ & -> & ->).
    apply Forall_replaced; [|exact H].
    apply trimmed_recomputed; [exact (Found i book F)|].
    apply Forall_app. split; [apply (Found i book F)|].
    constructor; [|constructor]. exact (validated_comment_trimmed _ z c V).
  - unfold updateReview.
    destruct (validateReview (req_body req)) as [[z c]|] eqn:V; [|exact H].
    destruct (param_id (req_params req)) as [[|i]|]; try exact H.
    destruct (findById w i) as [book|] eqn:F; [|exact H].
    pose proof (validated_comment_trimmed _ z c V) as Tc.
    destruct (Found i book F) as (T1 & T2 & T3 & T4 & TR).
    destruct (review_of (req_user req) (reviews book));
      (destruct (save false _ _) as [[w2 saved]|] eqn:S; cbn [fst]; [|exact H]);
      apply save_inv in S; destruct S as (_ & -> & ->);
      (apply Forall_replaced; [|exact H]);
      (apply trimmed_recomputed; [exact (Found i book F)|]).
    + now apply assign_first_trimmed.
    + apply Forall_app. split; [exact TR|]. constructor; [exact Tc|constructor].
  - unfold deleteReview.
    destruct (param_id params) as [[|i]|]; try exact H.
    destruct (findById w i) as [book|] eqn:F; [|exact H].
    destruct (reviews_id (param_reviewId params) (reviews book)) as [review|];
      [|exact H].
    destruct (negb (user review =? u)%N); [exact H|].
    destruct (save false _ _) as [[w2 saved]|] eqn:S; cbn [fst]; [|exact H].
    apply save_inv in S. destruct S as (_ & -> & ->).
    apply Forall_replaced; [|exact H].
    apply trimmed_recomputed; [exact (Found i book F)|].
    destruct (Found i book F) as (_ & _ & _ & _ & TR).
    apply Forall_forall. intros v Hv. unfold pull in Hv. apply filter_In in Hv.
    rewrite Forall_forall in TR. now apply TR.
Qed.

(** X16.  After any sequence of requests no stored title, author, genre,
    description or comment begins or ends with white space: every text
    reaches the collection through a trim, of the validator or of the
    schema. *)
Theorem stored_texts_trimmed (rs : list Request) :
  Forall texts_trimmed (books (run rs init_world)).
Proof.
  assert (G : forall w, Forall texts_trimmed (books w) ->
                        Forall texts_trimmed (books (run rs w))).
  { induction rs as [|r rs IH]; intros w H; cbn [run fold_left]; [exact H|].
    apply IH. now apply handle_keeps_trimmed. }
  apply G. constructor.
Qed.

(** ** The router *)

Lemma dispatch_In (routes : list Route) (m : Method) (path : list string)
      (r : Route) (bound : list (string * string)) :
  dispatch routes m path = Some (r, bound) -> In r routes.
Proof.
  induction routes as [|r0 routes IH]; cbn; [discriminate|].
  destruct (Method_eqb (route_method r0) m).
  - destruct (match_path (route_path r0) path) as [b0|].
    + intro H. injection H as <- _. now left.
    + intro H. right. now apply IH.
  - intro H. right. now apply IH.
Qed.

(** X17.  Whatever the request, the route it reaches has [auth] as its
    first middleware when its handler writes to the collection, and no
    middleware at all when its handler only reads. *)
Theorem writes_are_behind_auth (m : Method) (path : list string) (r : Route)
        (bound : list (string * string)) :
  dispatch book_routes m path = Some (r, bound) ->
  hd_error (route_middleware r)
  = if writes (route_handler r) then Some M_auth else None.
Proof.
  intro H. apply dispatch_In in H. cbn in H.
  repeat (destruct H as [<-|H]; [reflexivity|]). contradiction.
Qed.

Lemma writes_are_behind_auth_witness :
  dispatch book_routes DELETE ["5f1d7f3e9b1e8a0012345678"]
  = Some (mkRoute DELETE [Par "id"] [M_auth] H_deleteReview,
          [("id", "5f1d7f3e9b1e8a0012345678")])
  /\ hd_error (route_middleware (mkRoute DELETE [Par "id"] [M_auth] H_deleteReview))
     = Some M_auth.
Proof.
  split; [reflexivity|].
  exact (writes_are_behind_auth DELETE ["5f1d7f3e9b1e8a0012345678"] _ _ eq_refl).
Defined.

(** X18.  The routes that do bind their parameter: for every non-empty
    segment, [GET /books/<segment>] reaches searchBooks when the segment is
    "search" in any letter case, and getBookById with the segment as id
    otherwise; [POST /books/<segment>/reviews] reaches addReview with the
    segment as id. *)
Theorem book_routes_reach (c : ascii) (s : string) :
  routed GET [String c s]
  = Some (if (lower (String c s) =? "search")%string
          then (H_searchBooks, None, None)
          else (H_getBookById, Some (String c s), None))
  /\ routed POST [String c s; "reviews"]
     = Some (H_addReview, Some (String c s), None)
  /\ routed POST [String c s; "Reviews"]
     = Some (H_addReview, Some (String c s), None).
Proof.
  unfold routed.
  cbn [dispatch book_routes Method_eqb route_method route_path match_path].
  change (lower "search") with "search".
  rewrite (String.eqb_sym "search").
  split; [|split; reflexivity].
  destruct (lower (String c s) =? "search")%string; reflexivity.
Qed.

(** ** createBook *)


